(** * Account & Cart core of the hair e-commerce backend

    A shallow embedding of [backend/server.py]: the request handlers become
    functions from the document store (and the request's inputs) to a
    response and a new document store.

    - A MongoDB collection is a list of documents in insertion order;
      [find_one] returns the first match, [update_one] rewrites the first
      match and [insert_one] appends.  The driver encodes an [int] on 8
      bytes and raises [OverflowError] on one that does not fit; every
      other value is kept as it is given.
    - A Python [int] is a [Z]; a Python [float] is an IEEE-754 binary64
      value, [spec_float] with precision 53 and maximal exponent 1024.
    - [uuid.uuid4()], [datetime.utcnow()] and [bcrypt.gensalt()] read the
      outside world: a request carries their results in an [Env].
    - A handler that raises [HTTPException] answers with its status code and
      detail; any other exception leaves the handler unhandled. *)

From Stdlib Require Import ZArith List String Bool Lia DecimalString.
From Stdlib Require Import Floats.SpecFloat.
Import ListNotations.

Local Open Scope string_scope.
Local Open Scope Z_scope.
Local Open Scope list_scope.

(** ** Python numbers *)

Module PyFloat.

Definition float : Type := spec_float.

Definition prec : Z := 53.
Definition emax : Z := 1024.

Definition zero : float := S754_zero false.
Definition nan : float := S754_nan.

Definition add (x y : float) : float := SFadd prec emax x y.
Definition mul (x y : float) : float := SFmul prec emax x y.

(** [x == y] on floats: the two zeros compare equal, NaN equals nothing. *)
Definition eqb (x y : float) : bool := SFeqb x y.

Definition is_nan (x : float) : bool :=
  match x with S754_nan => true | _ => false end.

(** The same amount: equal under [==], or both NaN. *)
Definition same (x y : float) : bool :=
  eqb x y || (is_nan x && is_nan y).

(** [float(n)] for an [int]: the nearest binary64 value, ties to even;
    [None] stands for [OverflowError: int too large to convert to float]. *)
Definition of_int (n : Z) : option float :=
  match binary_normalize prec emax n 0 false with
  | S754_infinity _ => None
  | f => Some f
  end.

(** [n * x] with [n] an [int] and [x] a [float]: [n] is converted first. *)
Definition int_mul (n : Z) (x : float) : option float :=
  match of_int n with
  | Some f => Some (mul f x)
  | None => None
  end.

End PyFloat.

Definition float : Type := PyFloat.float.

(** ** Responses *)

Inductive response (A : Type) : Type :=
| Ok (body : A)
| HTTPException (status_code : Z) (detail : string)
| Unhandled (exception : string).

Arguments Ok {A} body.
Arguments HTTPException {A} status_code detail.
Arguments Unhandled {A} exception.

Definition is_ok {A : Type} (r : response A) : bool :=
  match r with Ok _ => true | _ => false end.

(** ** Models *)

Definition datetime : Type := Z.
Definition dict : Type := list (string * string).

Record User : Type := mkUser {
  user_id_ : string;
  user_email : string;
  user_first_name : string;
  user_last_name : string;
  user_password_hash : string;
  user_created_at : datetime;
  user_is_active : bool
}.

Record UserCreate : Type := mkUserCreate {
  uc_email : string;
  uc_first_name : string;
  uc_last_name : string;
  uc_password : string
}.

Record UserLogin : Type := mkUserLogin {
  ul_email : string;
  ul_password : string
}.

Record UserResponse : Type := mkUserResponse {
  ur_id : string;
  ur_email : string;
  ur_first_name : string;
  ur_last_name : string;
  ur_created_at : datetime;
  ur_is_active : bool
}.

Record Product : Type := mkProduct {
  product_id_ : string;
  product_name : string;
  product_description : string;
  product_price : float;
  product_category : string;
  product_subcategory : option string;
  product_images : list string;
  product_attributes : dict;
  product_stock_quantity : Z;
  product_is_active : bool;
  product_created_at : datetime
}.

Record CartItem : Type := mkCartItem {
  product_id : string;
  quantity : Z;
  price : float
}.

Record Cart : Type := mkCart {
  cart_id : string;
  cart_user_id : string;
  cart_items : list CartItem;
  cart_total_amount : float;
  cart_created_at : datetime;
  cart_updated_at : datetime
}.

Record Order : Type := mkOrder {
  order_id : string;
  order_user_id : string;
  order_items : list CartItem;
  order_total_amount : float;
  order_status : string;
  order_shipping_address : dict;
  order_payment_method : string;
  order_created_at : datetime
}.

Record OrderCreate : Type := mkOrderCreate {
  oc_items : list CartItem;
  oc_shipping_address : dict;
  oc_payment_method : string
}.

(** ** The document store *)

Record Db : Type := mkDb {
  users : list User;
  products : list Product;
  carts : list Cart;
  orders : list Order
}.

Definition empty_db : Db := mkDb [] [] [] [].

Definition set_users (db : Db) (us : list User) : Db :=
  mkDb us (products db) (carts db) (orders db).
Definition set_products (db : Db) (ps : list Product) : Db :=
  mkDb (users db) ps (carts db) (orders db).
Definition set_carts (db : Db) (cs : list Cart) : Db :=
  mkDb (users db) (products db) cs (orders db).
Definition set_orders (db : Db) (os : list Order) : Db :=
  mkDb (users db) (products db) (carts db) os.

Section Collection.
Context {A : Type}.

Fixpoint find_one (query : A -> bool) (coll : list A) : option A :=
  match coll with
  | [] => None
  | doc :: rest => if query doc then Some doc else find_one query rest
  end.

Definition insert_one (doc : A) (coll : list A) : list A := coll ++ [doc].

(** [update_one(query, {"$set": ...})]: the first match is rewritten, and
    nothing happens when there is none (no upsert). *)
Fixpoint update_one (query : A -> bool) (set : A -> A) (coll : list A) : list A :=
  match coll with
  | [] => []
  | doc :: rest =>
      if query doc then set doc :: rest
      else doc :: update_one query set rest
  end.
End Collection.

(** What a request reads from the outside world. *)
Record Env : Type := mkEnv {
  uuid4 : string;
  utcnow : nat -> datetime;   (* the k-th reading of the clock *)
  gensalt : string
}.

(** The driver's encoding of an [int]: [false] stands for
    [OverflowError: MongoDB can only handle up to 8-byte ints], raised
    before anything is written. *)
Definition bson_int (n : Z) : bool := (- 2 ^ 63 <=? n) && (n <? 2 ^ 63).

(** ** Cart routes *)

Definition by_user (uid : string) (c : Cart) : bool := String.eqb (cart_user_id c) uid.

Definition active_product (pid : string) (p : Product) : bool :=
  String.eqb (product_id_ p) pid && product_is_active p.

(** [Cart(user_id=...)]: the defaults draw an identifier and read the
    clock twice. *)
Definition new_Cart (env : Env) (uid : string) : Cart :=
  mkCart (uuid4 env) uid [] PyFloat.zero (utcnow env 0%nat) (utcnow env 1%nat).

Definition set_cart (its : list CartItem) (total : float) (now : datetime)
    (c : Cart) : Cart :=
  mkCart (cart_id c) (cart_user_id c) its total (cart_created_at c) now.

(** [item['quantity'] * item['price']] *)
Definition line_amount (it : CartItem) : option float :=
  PyFloat.int_mul (quantity it) (price it).

(** [sum(item['quantity'] * item['price'] for item in cart_items)]: the
    additions run from left to right, starting from 0; the first product
    that raises ends the sum.  The [int] 0 the sum starts from, and returns
    for no item, is the float 0.0 once added to a float or stored in a
    model's float field. *)
Fixpoint sum_from (acc : float) (its : list CartItem) : option float :=
  match its with
  | [] => Some acc
  | it :: rest =>
      match line_amount it with
      | Some v => sum_from (PyFloat.add acc v) rest
      | None => None
      end
  end.

Definition sum_lines (its : list CartItem) : option float :=
  sum_from PyFloat.zero its.

(** The lines the driver can encode: those whose quantities fit 8 bytes. *)
Definition storable (its : list CartItem) : bool :=
  forallb (fun it => bson_int (quantity it)) its.

(** The [for ... break] loop of [add_to_cart]: the first line of the product. *)
Definition existing_item (pid : string) (its : list CartItem) : option CartItem :=
  find_one (fun it => String.eqb (product_id it) pid) its.

(** [existing_item['quantity'] += quantity]: [existing_item] is the very
    dict that sits in [cart_items], so the list sees the new quantity. *)
Definition bump_quantity (pid : string) (q : Z) (its : list CartItem) : list CartItem :=
  update_one (fun it => String.eqb (product_id it) pid)
             (fun it => mkCartItem (product_id it) (quantity it + q) (price it))
             its.

Record CartSummary : Type := mkCartSummary {
  message : string;
  total_items : Z
}.

Definition get_cart (env : Env) (current_user : User) (db : Db)
    : response Cart * Db :=
  match find_one (by_user (user_id_ current_user)) (carts db) with
  | None =>
      let cart_obj := new_Cart env (user_id_ current_user) in
      (Ok cart_obj, set_carts db (insert_one cart_obj (carts db)))
  | Some cart => (Ok cart, db)
  end.

Definition add_to_cart (env : Env) (pid : string) (qty : Z)
    (current_user : User) (db : Db) : response CartSummary * Db :=
  match find_one (active_product pid) (products db) with
  | None => (HTTPException 404 "Product not found", db)
  | Some product =>
      let uid := user_id_ current_user in
      (* get or create cart *)
      let '(cart, db1, k) :=
        match find_one (by_user uid) (carts db) with
        | Some cart => (cart, db, 0%nat)
        | None =>
            let cart := new_Cart env uid in
            (cart, set_carts db (insert_one cart (carts db)), 2%nat)
        end in
      let items :=
        match existing_item pid (cart_items cart) with
        | Some _ => bump_quantity pid qty (cart_items cart)
        | None =>
            cart_items cart ++ [mkCartItem pid qty (product_price product)]
        end in
      match sum_lines items with
      | None => (Unhandled "OverflowError", db1)
      | Some total =>
          if storable items then
            (Ok (mkCartSummary "Item added to cart"
                               (Z.of_nat (List.length items))),
             set_carts db1
               (update_one (by_user uid)
                           (set_cart items total (utcnow env k))
                           (carts db1)))
          else (Unhandled "OverflowError", db1)
      end
  end.

Definition remove_from_cart (env : Env) (pid : string)
    (current_user : User) (db : Db) : response string * Db :=
  let uid := user_id_ current_user in
  match find_one (by_user uid) (carts db) with
  | None => (HTTPException 404 "Cart not found", db)
  | Some cart =>
      let items :=
        filter (fun it => negb (String.eqb (product_id it) pid)) (cart_items cart) in
      match sum_lines items with
      | None => (Unhandled "OverflowError", db)
      | Some total =>
          if storable items then
            (Ok "Item removed from cart",
             set_carts db
               (update_one (by_user uid)
                           (set_cart items total (utcnow env 0%nat))
                           (carts db)))
          else (Unhandled "OverflowError", db)
      end
  end.

(** ** Order routes *)

Definition create_order (env : Env) (order_data : OrderCreate)
    (current_user : User) (db : Db) : response Order * Db :=
  match sum_lines (oc_items order_data) with
  | None => (Unhandled "OverflowError", db)
  | Some total_amount =>
      let uid := user_id_ current_user in
      let order_obj :=
        mkOrder (uuid4 env) uid (oc_items order_data) total_amount "pending"
                (oc_shipping_address order_data)
                (oc_payment_method order_data) (utcnow env 0%nat) in
      if storable (oc_items order_data) then
        let db1 := set_orders db (insert_one order_obj (orders db)) in
        (* clear cart after order *)
        (Ok order_obj,
         set_carts db1
           (update_one (by_user uid)
                       (set_cart [] PyFloat.zero (utcnow env 1%nat))
                       (carts db1)))
      else (Unhandled "OverflowError", db)
  end.

Definition owned_order (oid uid : string) (o : Order) : bool :=
  String.eqb (order_id o) oid && String.eqb (order_user_id o) uid.

Definition get_user_orders (current_user : User) (db : Db) : response (list Order) :=
  Ok (firstn 100
        (filter (fun o => String.eqb (order_user_id o) (user_id_ current_user))
                (orders db))).

Definition get_order (oid : string) (current_user : User) (db : Db)
    : response Order :=
  match find_one (owned_order oid (user_id_ current_user)) (orders db) with
  | None => HTTPException 404 "Order not found"
  | Some order => Ok order
  end.

(** ** Product routes *)

Record ProductCreate : Type := mkProductCreate {
  pc_name : string;
  pc_description : string;
  pc_price : float;
  pc_category : string;
  pc_subcategory : option string;
  pc_images : list string;
  pc_attributes : dict;
  pc_stock_quantity : Z
}.

(** A [Product] built from the fields of [product_data]: the defaults draw
    an identifier, set the product active and read the clock. *)
Definition new_Product (env : Env) (product_data : ProductCreate) : Product :=
  mkProduct (uuid4 env) (pc_name product_data) (pc_description product_data)
            (pc_price product_data) (pc_category product_data)
            (pc_subcategory product_data) (pc_images product_data)
            (pc_attributes product_data) (pc_stock_quantity product_data)
            true (utcnow env 0%nat).

(** The query of [get_products]: active products, of the category when one
    is given; [if category:] takes the empty string for no category. *)
Definition listed (category : option string) (p : Product) : bool :=
  product_is_active p &&
  match category with
  | None => true
  | Some c => if String.eqb c "" then true else String.eqb (product_category p) c
  end.

(** [find(query).limit(limit).to_list(limit)]: the first [limit] matches;
    [to_list] raises [ValueError] on a negative length, and the driver
    cannot encode a limit that does not fit 8 bytes. *)
Definition get_products (category : option string) (limit : Z) (db : Db)
    : response (list Product) :=
  if limit <? 0 then Unhandled "ValueError"
  else if negb (bson_int limit) then Unhandled "OverflowError"
  else Ok (firstn (Z.to_nat limit) (filter (listed category) (products db))).

Definition get_product (pid : string) (db : Db) : response Product :=
  match find_one (active_product pid) (products db) with
  | None => HTTPException 404 "Product not found"
  | Some product => Ok product
  end.


(** ** Sample data of the catalog *)

(** The float a decimal literal [n/d] denotes: the nearest binary64 value. *)
Definition float_literal (n d : Z) : float :=
  SFdiv PyFloat.prec PyFloat.emax
        (binary_normalize PyFloat.prec PyFloat.emax n 0 false)
        (binary_normalize PyFloat.prec PyFloat.emax d 0 false).

Definition sample_products : list ProductCreate := [
  mkProductCreate
    "Premium Virgin Hair Extensions - 22 inch"
    "100% virgin human hair extensions with natural shine and silky texture. Perfect for adding length and volume."
    (float_literal 12999 100) "extensions" (Some "clip_in")
    ["https://images.unsplash.com/photo-1500917293891-ef795e70e1f6?crop=entropy&cs=srgb&fm=jpg&ixid=M3w3NDk1NzZ8MHwxfHNlYXJjaHwxfHxoYWlyJTIwZXh0ZW5zaW9uc3xlbnwwfHx8fDE3NTQ3ODM1NTB8MA&ixlib=rb-4.1.0&q=85"]
    [("length", "22 inches");
     ("color", "Natural Black");
     ("texture", "Straight");
     ("weight", "120g")]
    50;
  mkProductCreate
    "Curly Hair Extensions Bundle"
    "Beautiful curly hair extensions for natural volume and bounce. Easy to style and maintain."
    (float_literal 14999 100) "extensions" (Some "sewn_in")
    ["https://images.unsplash.com/photo-1634449571017-5fecfd26ad76?crop=entropy&cs=srgb&fm=jpg&ixid=M3w3NDk1NzZ8MHwxfHNlYXJjaHwyfHxoYWlyJTIwZXh0ZW5zaW9uc3xlbnwwfHx8fDE3NTQ3ODM1NTB8MA&ixlib=rb-4.1.0&q=85"]
    [("length", "18 inches");
     ("color", "Dark Brown");
     ("texture", "Curly");
     ("weight", "140g")]
    35;
  mkProductCreate
    "Lace Front Wig - Natural Look"
    "Premium lace front wig with natural hairline. Comfortable cap construction for all-day wear."
    (float_literal 19999 100) "wigs" (Some "lace_front")
    ["https://images.unsplash.com/photo-1624489173879-7cc62610ddea?crop=entropy&cs=srgb&fm=jpg&ixid=M3w3NDk1Nzl8MHwxfHNlYXJjaHwxfHx3aWdzfGVufDB8fHx8MTc1NDc4MzU1NXww&ixlib=rb-4.1.0&q=85"]
    [("length", "16 inches");
     ("color", "Medium Brown");
     ("texture", "Wavy");
     ("cap_size", "Medium")]
    25;
  mkProductCreate
    "Colorful Wig Collection"
    "Fun and vibrant colored wigs perfect for special occasions or daily wear."
    (float_literal 8999 100) "wigs" (Some "synthetic")
    ["https://images.unsplash.com/photo-1634315775834-3e1ac73de6b6?crop=entropy&cs=srgb&fm=jpg&ixid=M3w3NDk1Nzl8MHwxfHNlYXJjaHwyfHx3aWdzfGVufDB8fHx8MTc1NDc4MzU1NXww&ixlib=rb-4.1.0&q=85"]
    [("length", "12 inches");
     ("color", "Various");
     ("texture", "Straight");
     ("cap_size", "One Size")]
    40;
  mkProductCreate
    "Brazilian Hair Bundle - 3 Pack"
    "Premium Brazilian virgin hair bundles. Soft, silky and tangle-free."
    (float_literal 29999 100) "bundles" (Some "brazilian")
    ["https://images.pexels.com/photos/6923472/pexels-photo-6923472.jpeg"]
    [("length", "16-18-20 inches");
     ("color", "Natural Black");
     ("texture", "Body Wave");
     ("pieces", "3 bundles")]
    20;
  mkProductCreate
    "Peruvian Hair Bundle Set"
    "High-quality Peruvian hair bundles with natural shine and body."
    (float_literal 27999 100) "bundles" (Some "peruvian")
    ["https://images.pexels.com/photos/6923557/pexels-photo-6923557.jpeg"]
    [("length", "14-16-18 inches");
     ("color", "Dark Brown");
     ("texture", "Straight");
     ("pieces", "3 bundles")]
    15;
  mkProductCreate
    "Hair Care Essentials Kit"
    "Complete hair care kit with shampoo, conditioner, and styling tools."
    (float_literal 4999 100) "hair_care" (Some "shampoo_conditioner")
    ["https://images.unsplash.com/photo-1717160675489-7779f2c91999?crop=entropy&cs=srgb&fm=jpg&ixid=M3w3NDk1Nzh8MHwxfHNlYXJjaHwxfHxoYWlyJTIwY2FyZXxlbnwwfHx8fDE3NTQ3ODM1NjV8MA&ixlib=rb-4.1.0&q=85"]
    [("type", "Complete Kit");
     ("size", "Set of 4");
     ("scent", "Coconut")]
    60;
  mkProductCreate
    "Professional Hair Tools Set"
    "Complete set of professional hair styling tools including brushes, clips, and combs."
    (float_literal 3999 100) "accessories" (Some "tools")
    ["https://images.pexels.com/photos/973401/pexels-photo-973401.jpeg"]
    [("pieces", "15-piece set");
     ("material", "Professional Grade");
     ("color", "Black")]
    45
].

(** The loop of [initialize_sample_data]: the [k]-th product built reads
    its identifier and creation time from [envs k]. *)
Fixpoint insert_samples (envs : nat -> Env) (k : nat)
    (samples : list ProductCreate) (ps : list Product) : list Product :=
  match samples with
  | [] => ps
  | product_data :: rest =>
      insert_samples envs (S k) rest
                     (insert_one (new_Product (envs k) product_data) ps)
  end.

(** [str(n)] for a length. *)
Definition str_of_len (n : nat) : string :=
  DecimalString.NilZero.string_of_uint (Nat.to_uint n).

Definition initialize_sample_data (envs : nat -> Env) (db : Db)
    : response string * Db :=
  let existing := Z.of_nat (List.length (products db)) in
  if 0 <? existing then (Ok "Sample data already exists", db)
  else
    (Ok ("Initialized " ++ str_of_len (List.length sample_products)
         ++ " sample products")%string,
     set_products db (insert_samples envs 0%nat sample_products (products db))).

(** ** The states the store goes through

    The cart and order routes are the only writers of the cart collection.
    Registration writes the user collection only, product creation and
    seeding the catalog only; they, and an operator's edit of a catalog
    price, are covered by letting these two collections change freely. *)
Inductive reachable : Db -> Prop :=
| reach_empty : reachable empty_db
| reach_users db us : reachable db -> reachable (set_users db us)
| reach_products db ps : reachable db -> reachable (set_products db ps)
| reach_get_cart env u db :
    reachable db -> reachable (snd (get_cart env u db))
| reach_add_to_cart env pid qty u db :
    reachable db -> reachable (snd (add_to_cart env pid qty u db))
| reach_remove_from_cart env pid u db :
    reachable db -> reachable (snd (remove_from_cart env pid u db))
| reach_create_order env od u db :
    reachable db -> reachable (snd (create_order env od u db)).

(** A cart holds one line per product, and its total is the sum of its lines. *)
Definition distinct_lines (its : list CartItem) : Prop :=
  NoDup (map product_id its).

Definition cart_ok (c : Cart) : Prop :=
  distinct_lines (cart_items c) /\
  sum_lines (cart_items c) = Some (cart_total_amount c).

Definition carts_ok (db : Db) : Prop := Forall cart_ok (carts db).

(** The total a route writes with the lines [its]: the sum, when it can be
    computed and the driver can encode the lines. *)
Definition stored_total (its : list CartItem) : option float :=
  match sum_lines its with
  | Some total => if storable its then Some total else None
  | None => None
  end.

(** The owners of the stored carts. *)
Definition cart_owners (db : Db) : list string := map cart_user_id (carts db).

(** The lines [add_to_cart] computes from the lines it read. *)
Definition added_lines (pid : string) (qty : Z) (p : float)
    (its : list CartItem) : list CartItem :=
  match existing_item pid its with
  | Some _ => bump_quantity pid qty its
  | None => its ++ [mkCartItem pid qty p]
  end.

(** The account's cart, as the routes look it up. *)
Definition cart_of (uid : string) (db : Db) : option Cart :=
  find_one (by_user uid) (carts db).

(** The cart [add_to_cart] works on: the stored one, or a new one. *)
Definition looked_up_cart (env : Env) (uid : string) (db : Db) : Cart :=
  match cart_of uid db with
  | Some c => c
  | None => new_Cart env uid
  end.

(** [total] is the sum, from left to right and starting from 0, of
    quantity times price over the lines [its]. *)
Definition is_sum_of_lines (its : list CartItem) (total : float) : Prop :=
  exists amounts : list float,
    Forall2 (fun it a => PyFloat.int_mul (quantity it) (price it) = Some a)
            its amounts /\
    total = fold_left PyFloat.add amounts PyFloat.zero.

(** ** Session tokens, accounts *)

Inductive claim : Type :=
| Str (s : string)
| Num (n : Z).

Definition payload : Type := list (string * claim).

Fixpoint dict_get (k : string) (d : payload) : option claim :=
  match d with
  | [] => None
  | (k', v) :: rest => if String.eqb k' k then Some v else dict_get k rest
  end.

(** [d.update({k: v})] *)
Fixpoint dict_update (k : string) (v : claim) (d : payload) : payload :=
  match d with
  | [] => [(k, v)]
  | (k', v') :: rest =>
      if String.eqb k' k then (k, v) :: rest
      else (k', v') :: dict_update k v rest
  end.

(** A bearer credential either parses as a signed token or does not. *)
Inductive token : Type :=
| Jwt (claims : payload) (signature : string)
| Malformed (raw : string).

(** What the handlers take from their libraries and from the process
    environment. *)
Class Libraries : Type := {
  (* email_validator: [true] when [validate_email] does not raise *)
  validate_email : string -> bool;
  (* bcrypt *)
  bcrypt_hashpw : string -> string -> string;
  bcrypt_checkpw : string -> string -> bool;
  (* the HS256 signature of a payload under a key *)
  hs256 : string -> payload -> string;
  JWT_SECRET : string
}.

Definition ACCESS_TOKEN_EXPIRE_HOURS : Z := 24.

(** [timedelta(hours=h)], in seconds, the unit of [datetime] here. *)
Definition timedelta_hours (h : Z) : Z := h * 3600.

Record LoginResponse : Type := mkLoginResponse {
  access_token : token;
  token_type : string;
  lr_user : UserResponse
}.

Definition to_UserResponse (u : User) : UserResponse :=
  mkUserResponse (user_id_ u) (user_email u) (user_first_name u)
                 (user_last_name u) (user_created_at u) (user_is_active u).

Section Auth.
Context `{Libraries}.

(** Modelled from the spec: [jwt.encode] and [jwt.decode] of the PyJWT
    package, which the handlers call and the repository does not hold.
    A token embeds its claims and a signature under the shared secret;
    validation fails when the signature does not verify, when the token
    is structurally malformed (here: it does not parse, or embeds no
    expiry instant) and when the current time is at or past the expiry,
    and yields the embedded claims otherwise. *)
Definition jwt_encode (claims : payload) (key : string) : token :=
  Jwt claims (hs256 key claims).

Definition jwt_decode (tok : token) (key : string) (now : datetime)
    : option payload :=
  match tok with
  | Malformed _ => None
  | Jwt claims signature =>
      if negb (String.eqb signature (hs256 key claims)) then None
      else match dict_get "exp" claims with
           | Some (Num expiry) => if now <? expiry then Some claims else None
           | _ => None
           end
  end.

Definition hash_password (env : Env) (password : string) : string :=
  bcrypt_hashpw password (gensalt env).

Definition verify_password (password hashed : string) : bool :=
  bcrypt_checkpw password hashed.

Definition create_access_token (env : Env) (data : payload) : token :=
  let to_encode := data in
  let expire := utcnow env 0%nat + timedelta_hours ACCESS_TOKEN_EXPIRE_HOURS in
  let to_encode := dict_update "exp" (Num expire) to_encode in
  jwt_encode to_encode JWT_SECRET.

(** The [try] block of [get_current_user]: the subject of a valid token. *)
Definition token_subject (env : Env) (credentials : token) : response claim :=
  match jwt_decode credentials JWT_SECRET (utcnow env 0%nat) with
  | None => HTTPException 401 "Invalid token"
  | Some claims =>
      match dict_get "sub" claims with
      | None => HTTPException 401 "Invalid token"
      | Some user_id => Ok user_id
      end
  end.

Definition by_id (user_id : claim) (u : User) : bool :=
  match user_id with
  | Str s => String.eqb (user_id_ u) s
  | Num _ => false
  end.

Definition get_current_user (env : Env) (credentials : token) (db : Db)
    : response User :=
  match token_subject env credentials with
  | Ok user_id =>
      match find_one (by_id user_id) (users db) with
      | None => HTTPException 404 "User not found"
      | Some user => Ok user
      end
  | HTTPException c d => HTTPException c d
  | Unhandled e => Unhandled e
  end.

Definition by_email (email : string) (u : User) : bool :=
  String.eqb (user_email u) email.

Definition register (env : Env) (user_data : UserCreate) (db : Db)
    : response UserResponse * Db :=
  if negb (validate_email (uc_email user_data)) then
    (HTTPException 400 "Invalid email format", db)
  else
    match find_one (by_email (uc_email user_data)) (users db) with
    | Some _ => (HTTPException 400 "Email already registered", db)
    | None =>
        let user_obj :=
          mkUser (uuid4 env) (uc_email user_data) (uc_first_name user_data)
                 (uc_last_name user_data)
                 (hash_password env (uc_password user_data))
                 (utcnow env 0%nat) true in
        (Ok (to_UserResponse user_obj),
         set_users db (insert_one user_obj (users db)))
    end.

Definition login (env : Env) (user_data : UserLogin) (db : Db)
    : response LoginResponse :=
  match find_one (by_email (ul_email user_data)) (users db) with
  | None => HTTPException 401 "Invalid email or password"
  | Some user =>
      if negb (verify_password (ul_password user_data) (user_password_hash user))
      then HTTPException 401 "Invalid email or password"
      else
        let access_token :=
          create_access_token env [("sub", Str (user_id_ user))] in
        Ok (mkLoginResponse access_token "bearer" (to_UserResponse user))
  end.

Definition get_current_user_info (current_user : User) : response UserResponse :=
  Ok (to_UserResponse current_user).

End Auth.

(** ** Sample data *)

Module Sample.

(** 5.0, 10.0 and 20.0 *)
Definition five : float := S754_finite false 5629499534213120 (-50).
Definition ten : float := S754_finite false 5629499534213120 (-49).
Definition twenty : float := S754_finite false 5629499534213120 (-48).

(** A request made at time [t] that draws the identifier [id]. *)
Definition env (id : string) (t : Z) : Env :=
  mkEnv id (fun k => t + Z.of_nat k) "salt".

Definition alice : User :=
  mkUser "alice" "alice@example.com" "Alice" "Ayo" "salt:pw-a" 0 true.
Definition bob : User :=
  mkUser "bob" "bob@example.com" "Bob" "Bello" "salt:pw-b" 0 true.

Definition wig : Product :=
  mkProduct "wig" "Lace Front Wig - Natural Look" "Premium lace front wig"
            ten "wigs" (Some "lace_front") [] [("texture", "Wavy")] 25 true 0.
Definition wig_repriced : Product :=
  mkProduct "wig" "Lace Front Wig - Natural Look" "Premium lace front wig"
            twenty "wigs" (Some "lace_front") [] [("texture", "Wavy")] 25 true 0.

Definition shop : Db := mkDb [alice; bob] [wig] [] [].

Definition order_a : Order :=
  mkOrder "o-1" "alice" [mkCartItem "wig" 2 ten] twenty "pending"
          [("city", "Lagos")] "card" 7.
Definition shop_with_order : Db := mkDb [alice; bob] [wig] [] [order_a].

(** Stand-ins for the libraries: every address is accepted, a hash is
    the salt followed by the password, a signature is the key followed
    by the names of the claims. *)
Definition libs : Libraries := {|
  validate_email := fun _ => true;
  bcrypt_hashpw := fun password salt => (salt ++ ":" ++ password)%string;
  bcrypt_checkpw := fun password hashed => String.eqb hashed ("salt:" ++ password)%string;
  hs256 := fun key claims => (key ++ "." ++ String.concat "," (map fst claims))%string;
  JWT_SECRET := "your-secret-key-here"
|}.


(** Alice holds a cart of two wigs; she orders two wigs and a clip. *)
Definition shop_with_cart : Db :=
  mkDb [alice; bob] [wig]
       [mkCart "c-1" "alice" [mkCartItem "wig" 2 ten] twenty 100 102] [].
Definition two_line_order : OrderCreate :=
  mkOrderCreate [mkCartItem "wig" 2 ten; mkCartItem "clip" 1 five]
                [("city", "Lagos")] "card".
Definition small_order : OrderCreate :=
  mkOrderCreate [mkCartItem "wig" 2 ten] [("city", "Lagos")] "card".

End Sample.

(** * Properties *)

(** ** Numbers *)

Lemma SFeqb_finite_refl (s : bool) (m : positive) (e : Z) :
  SFeqb (S754_finite s m e) (S754_finite s m e) = true.
Proof.
  unfold SFeqb, SFcompare.
  rewrite Z.compare_refl, Pos.compare_cont_refl.
  destruct s; reflexivity.
Qed.

Lemma same_refl (x : float) : PyFloat.same x x = true.
Proof.
  unfold PyFloat.same, PyFloat.eqb.
  destruct x as [s | s | | s m e]; try (destruct s; reflexivity).
  - reflexivity.
  - now rewrite SFeqb_finite_refl.
Qed.

(** [0 + x] is [x], up to the sign of a zero. *)
Lemma same_zero_add (x : float) :
  PyFloat.same (PyFloat.add PyFloat.zero x) x = true.
Proof.
  destruct x as [s | s | | s m e].
  - destruct s; reflexivity.
  - destruct s; reflexivity.
  - reflexivity.
  - change (PyFloat.add PyFloat.zero (S754_finite s m e)) with (S754_finite s m e).
    apply same_refl.
Qed.

(** *** An [int] that fits 8 bytes converts to a float *)

Lemma digits2_size (p : positive) : digits2_pos p = Pos.size p.
Proof. induction p; simpl; congruence. Qed.

Lemma digits2_bound (p : positive) (k : Z) :
  0 <= k -> Zpos p < 2 ^ k -> Zpos (digits2_pos p) <= k.
Proof.
  intros Hk Hp. rewrite digits2_size.
  pose proof (Pos.size_le p) as Hs.
  destruct (Z.le_gt_cases (Zpos (Pos.size p)) k) as [Hle | Hgt]; [exact Hle|].
  exfalso.
  assert (H2 : 2 ^ (k + 1) <= 2 ^ Zpos (Pos.size p))
    by (apply Z.pow_le_mono_r; lia).
  assert (H3 : 2 ^ Zpos (Pos.size p) <= Zpos p~0).
  { rewrite <- Pos2Z.inj_pow. apply Pos2Z.pos_le_pos. exact Hs. }
  rewrite Z.pow_add_r in H2 by lia.
  change (Zpos p~0) with (2 * Zpos p) in H3. lia.
Qed.

Lemma digits2_gt (p : positive) : Zpos p < 2 ^ Zpos (digits2_pos p).
Proof.
  rewrite digits2_size, <- Pos2Z.inj_pow.
  apply Pos2Z.pos_lt_pos. apply Pos.size_gt.
Qed.

Lemma Zdigits2_bound (m k : Z) :
  0 <= k -> 0 <= m < 2 ^ k -> Zdigits2 m <= k.
Proof.
  intros Hk [H0 Hm]. destruct m as [|p|p]; simpl; [exact Hk | | lia].
  now apply digits2_bound.
Qed.

Lemma shr_1_bounds (mrs : shr_record) :
  0 <= shr_m mrs -> 0 <= shr_m (shr_1 mrs) <= shr_m mrs.
Proof.
  destruct mrs as [m r s]. simpl. destruct m as [|p|p]; simpl; try lia.
  destruct p; simpl; lia.
Qed.

Lemma iter_shr_1_bounds (p : positive) (mrs : shr_record) :
  0 <= shr_m mrs -> 0 <= shr_m (iter_pos shr_1 p mrs) <= shr_m mrs.
Proof.
  revert mrs. induction p as [p IH | p IH |]; intros mrs H0; simpl.
  - pose proof (shr_1_bounds mrs H0) as [Ha Hb].
    pose proof (IH _ Ha) as [Hc Hd]. pose proof (IH _ Hc). lia.
  - pose proof (IH _ H0) as [Hc Hd]. pose proof (IH _ Hc). lia.
  - now apply shr_1_bounds.
Qed.

Lemma shr_m_of_loc (m : Z) (l : location) : shr_m (shr_record_of_loc m l) = m.
Proof. destruct l as [|[]]; reflexivity. Qed.

(** A shift to the right does not grow the mantissa; the exponent it leaves
    is the one it found or [fexp] of the number's magnitude. *)
Lemma shr_fexp_bounds (m e : Z) (l : location) :
  0 <= m ->
  0 <= shr_m (fst (shr_fexp PyFloat.prec PyFloat.emax m e l)) <= m /\
  (snd (shr_fexp PyFloat.prec PyFloat.emax m e l) = e \/
   snd (shr_fexp PyFloat.prec PyFloat.emax m e l)
   = fexp PyFloat.prec PyFloat.emax (Zdigits2 m + e)).
Proof.
  intros Hm. unfold shr_fexp, shr.
  destruct (fexp PyFloat.prec PyFloat.emax (Zdigits2 m + e) - e) as [|p|p] eqn:E;
    cbn [fst snd].
  - rewrite shr_m_of_loc. split; [lia | now left].
  - pose proof (iter_shr_1_bounds p (shr_record_of_loc m l)) as Hb.
    rewrite shr_m_of_loc in Hb. split; [apply Hb; lia|]. right. lia.
  - rewrite shr_m_of_loc. split; [lia | now left].
Qed.

Lemma round_nearest_even_bounds (m : Z) (l : location) :
  0 <= m -> m <= round_nearest_even m l <= m + 1.
Proof.
  intros Hm. unfold round_nearest_even. destruct l as [|[]]; try lia.
  destruct (Z.even m); lia.
Qed.

Lemma fexp_le (x b : Z) :
  x - 53 <= b -> -1074 <= b -> fexp PyFloat.prec PyFloat.emax x <= b.
Proof. unfold fexp, emin, PyFloat.prec, PyFloat.emax. lia. Qed.

Lemma binary_round_aux_finite (sx : bool) (m e : Z) (s : bool) :
  0 <= m < 2 ^ 64 -> e <= 0 ->
  binary_round_aux PyFloat.prec PyFloat.emax sx m e loc_Exact <> S754_infinity s.
Proof.
  intros Hm He. unfold binary_round_aux.
  pose proof (shr_fexp_bounds m e loc_Exact ltac:(lia)) as [Hm1 He1].
  destruct (shr_fexp PyFloat.prec PyFloat.emax m e loc_Exact) as [mrs' e'].
  cbn [fst snd] in Hm1, He1.
  assert (Hd : Zdigits2 m <= 64) by (apply Zdigits2_bound; lia).
  assert (He' : e' <= 11).
  { destruct He1 as [-> | ->]; [lia|]. apply fexp_le; lia. }
  pose proof (round_nearest_even_bounds (shr_m mrs') (loc_of_shr_record mrs')
                ltac:(lia)) as Hr.
  set (m1 := round_nearest_even (shr_m mrs') (loc_of_shr_record mrs')) in *.
  assert (Hm1' : 0 <= m1 < 2 ^ 65).
  { change (2 ^ 65) with (2 * 2 ^ 64). lia. }
  pose proof (shr_fexp_bounds m1 e' loc_Exact ltac:(lia)) as [Hm2 He2].
  destruct (shr_fexp PyFloat.prec PyFloat.emax m1 e' loc_Exact) as [mrs'' e''].
  cbn [fst snd] in Hm2, He2.
  assert (Hd1 : Zdigits2 m1 <= 65) by (apply Zdigits2_bound; lia).
  assert (He'' : e'' <= 971).
  { destruct He2 as [-> | ->]; [lia|]. apply fexp_le; lia. }
  destruct (shr_m mrs''); try discriminate.
  unfold PyFloat.emax, PyFloat.prec.
  destruct (Z.leb_spec e'' (1024 - 53)); [discriminate | lia].
Qed.

Lemma iter_xO_pow (mx d : positive) :
  Zpos (Pos.iter xO mx d) = Zpos mx * 2 ^ Zpos d.
Proof.
  induction d as [|d IH] using Pos.peano_ind.
  - simpl. lia.
  - rewrite Pos.iter_succ, Pos2Z.inj_succ, Z.pow_succ_r by lia.
    change (Zpos (Pos.iter xO mx d)~0) with (2 * Zpos (Pos.iter xO mx d)). lia.
Qed.

Lemma shl_align_bounds (mx : positive) :
  Zpos mx < 2 ^ 64 ->
  Zpos (fst (shl_align mx 0
               (fexp PyFloat.prec PyFloat.emax (Zpos (digits2_pos mx) + 0))))
    < 2 ^ 64 /\
  snd (shl_align mx 0
         (fexp PyFloat.prec PyFloat.emax (Zpos (digits2_pos mx) + 0))) <= 0.
Proof.
  intros Hm. unfold shl_align.
  destruct (fexp PyFloat.prec PyFloat.emax (Zpos (digits2_pos mx) + 0) - 0)
    as [|d|d] eqn:E; cbn [fst snd].
  - split; [exact Hm | lia].
  - split; [exact Hm | lia].
  - assert (Hf : fexp PyFloat.prec PyFloat.emax (Zpos (digits2_pos mx) + 0)
                 = Zneg d) by lia.
    rewrite Hf. split; [|lia].
    rewrite iter_xO_pow.
    pose proof (digits2_gt mx) as Hg.
    assert (Hd : Zpos (digits2_pos mx) + Zpos d = 53).
    { unfold fexp, emin, PyFloat.prec, PyFloat.emax in Hf. lia. }
    assert (Hp : 2 ^ Zpos (digits2_pos mx) * 2 ^ Zpos d = 2 ^ 53).
    { rewrite <- Z.pow_add_r by lia. now rewrite Hd. }
    assert (H53 : 2 ^ 53 < 2 ^ 64) by (apply Z.pow_lt_mono_r; lia).
    assert (Hpos : 0 < 2 ^ Zpos d) by (apply Z.pow_pos_nonneg; lia).
    nia.
Qed.

Lemma binary_round_finite (sx : bool) (mx : positive) (s : bool) :
  Zpos mx < 2 ^ 64 ->
  binary_round PyFloat.prec PyFloat.emax sx mx 0 <> S754_infinity s.
Proof.
  intros Hm. unfold binary_round.
  pose proof (shl_align_bounds mx Hm) as [Hz He].
  destruct (shl_align mx 0 _) as [mz ez]. cbn [fst snd] in Hz, He.
  apply binary_round_aux_finite; [lia | exact He].
Qed.

Lemma of_int_bson (n : Z) : bson_int n = true -> PyFloat.of_int n <> None.
Proof.
  unfold bson_int. intros Hb. apply andb_true_iff in Hb as [Hlo Hhi].
  apply Z.leb_le in Hlo. apply Z.ltb_lt in Hhi.
  assert (H64 : 2 ^ 63 < 2 ^ 64) by (apply Z.pow_lt_mono_r; lia).
  unfold PyFloat.of_int, binary_normalize.
  destruct n as [|p|p].
  - discriminate.
  - pose proof (fun s => binary_round_finite false p s ltac:(lia)) as Hf.
    destruct (binary_round PyFloat.prec PyFloat.emax false p 0) eqn:E;
      try discriminate.
    exfalso. now apply (Hf s).
  - pose proof (fun s => binary_round_finite true p s ltac:(lia)) as Hf.
    destruct (binary_round PyFloat.prec PyFloat.emax true p 0) eqn:E;
      try discriminate.
    exfalso. now apply (Hf s).
Qed.

Lemma bson_int_range (n : Z) : bson_int n = true <-> - 2 ^ 63 <= n < 2 ^ 63.
Proof.
  unfold bson_int. rewrite andb_true_iff, Z.leb_le, Z.ltb_lt. tauto.
Qed.

(** ** Collections *)

Section CollectionFacts.
Context {A : Type}.
Implicit Types (q : A -> bool) (f : A -> A) (l : list A).

Lemma find_one_In q l d : find_one q l = Some d -> In d l /\ q d = true.
Proof.
  induction l as [|a l IH]; simpl; [discriminate|].
  destruct (q a) eqn:Ha.
  - intros [= <-]. auto.
  - intros Hd. destruct (IH Hd). auto.
Qed.

Lemma find_one_none q l : find_one q l = None -> forall d, In d l -> q d = false.
Proof.
  induction l as [|a l IH]; simpl; [contradiction|].
  destruct (q a) eqn:Ha; [discriminate|].
  intros Hn d [<- | Hd]; auto.
Qed.

Lemma find_one_none_iff q l :
  find_one q l = None <-> ~ exists d, In d l /\ q d = true.
Proof.
  split.
  - intros Hn [d [Hd Hq]]. rewrite (find_one_none _ _ Hn d Hd) in Hq. discriminate.
  - intros Hno. destruct (find_one q l) as [d|] eqn:E; [|reflexivity].
    exfalso. apply Hno. exists d. now apply find_one_In.
Qed.

Lemma find_one_insert q l d :
  find_one q (insert_one d l) =
  match find_one q l with
  | Some x => Some x
  | None => if q d then Some d else None
  end.
Proof.
  unfold insert_one. induction l as [|a l IH]; simpl.
  - reflexivity.
  - destruct (q a); [reflexivity | exact IH].
Qed.

Lemma find_one_update_one q f l :
  (forall d, q d = true -> q (f d) = true) ->
  find_one q (update_one q f l) = option_map f (find_one q l).
Proof.
  intros Hq. induction l as [|a l IH]; simpl; [reflexivity|].
  destruct (q a) eqn:Ha; simpl.
  - now rewrite (Hq a Ha).
  - now rewrite Ha.
Qed.

Lemma update_one_none q f l : find_one q l = None -> update_one q f l = l.
Proof.
  induction l as [|a l IH]; simpl; [reflexivity|].
  destruct (q a); [discriminate|]. intros Hn. now rewrite IH.
Qed.

Lemma update_one_Forall (P : A -> Prop) q f l :
  (forall d, In d l -> q d = true -> P (f d)) ->
  Forall P l -> Forall P (update_one q f l).
Proof.
  induction l as [|a l IH]; simpl; intros Hf Hl; [constructor|].
  inversion Hl as [|? ? Ha Hl']; subst.
  destruct (q a) eqn:Hqa; constructor; auto.
Qed.

Lemma update_one_map {B : Type} (g : A -> B) q f l :
  (forall d, g (f d) = g d) -> map g (update_one q f l) = map g l.
Proof.
  intros Hg. induction l as [|a l IH]; simpl; [reflexivity|].
  destruct (q a); simpl; [now rewrite Hg | now rewrite IH].
Qed.

Lemma update_one_length q f l : List.length (update_one q f l) = List.length l.
Proof.
  induction l as [|a l IH]; simpl; [reflexivity|].
  destruct (q a); simpl; [reflexivity | now rewrite IH].
Qed.
End CollectionFacts.

(** ** Lines of a cart *)

Lemma existing_item_none (pid : string) (its : list CartItem) :
  existing_item pid its = None <-> ~ In pid (map product_id its).
Proof.
  unfold existing_item. induction its as [|it its IH]; simpl.
  - split; auto.
  - destruct (String.eqb_spec (product_id it) pid) as [E | E].
    + split; [discriminate | intros Hn; exfalso; apply Hn; auto].
    + rewrite IH. split; [intros Hn [Hc | Hc]; auto | intros Hn Hc; apply Hn; auto].
Qed.

Lemma bump_quantity_ids (pid : string) (q : Z) (its : list CartItem) :
  map product_id (bump_quantity pid q its) = map product_id its.
Proof. unfold bump_quantity. now apply update_one_map. Qed.

Lemma filter_absent (pid : string) (its : list CartItem) :
  ~ In pid (map product_id its) ->
  filter (fun it => negb (String.eqb (product_id it) pid)) its = its.
Proof.
  induction its as [|it its IH]; simpl; intros Hn; [reflexivity|].
  destruct (String.eqb_spec (product_id it) pid) as [E | E]; simpl.
  - exfalso. apply Hn. auto.
  - rewrite IH; auto.
Qed.

Lemma filter_distinct_lines (keep : CartItem -> bool) (its : list CartItem) :
  distinct_lines its -> distinct_lines (filter keep its).
Proof.
  unfold distinct_lines. induction its as [|it its IH]; simpl; intros Hd.
  - constructor.
  - inversion Hd as [|? ? Hn Hd']; subst.
    destruct (keep it); simpl; auto.
    constructor; auto.
    intros Hin. apply Hn.
    apply in_map_iff in Hin as [x [Hx Hxin]].
    apply in_map_iff. exists x. split; [exact Hx|].
    apply filter_In in Hxin. tauto.
Qed.

Lemma added_lines_distinct pid qty p its :
  distinct_lines its -> distinct_lines (added_lines pid qty p its).
Proof.
  unfold added_lines, distinct_lines. intros Hd.
  destruct (existing_item pid its) eqn:E.
  - now rewrite bump_quantity_ids.
  - rewrite map_app. simpl.
    apply existing_item_none in E.
    apply NoDup_app_remove_l with (l := []). simpl.
    apply NoDup_rev in Hd.
    assert (Hr : NoDup (rev (pid :: rev (map product_id its)))).
    { apply NoDup_rev. constructor; [|exact Hd].
      intros Hin. apply E. now apply in_rev. }
    simpl in Hr. now rewrite rev_involutive in Hr.
Qed.

(** ** The cart routes, case by case *)

Lemma by_user_set_cart uid its total now c :
  by_user uid (set_cart its total now c) = by_user uid c.
Proof. reflexivity. Qed.

Lemma add_to_cart_no_product env pid qty u db :
  find_one (active_product pid) (products db) = None ->
  add_to_cart env pid qty u db = (HTTPException 404 "Product not found", db).
Proof. intros E. unfold add_to_cart. now rewrite E. Qed.

Lemma stored_total_some (its : list CartItem) (total : float) :
  stored_total its = Some total <->
  sum_lines its = Some total /\ storable its = true.
Proof.
  unfold stored_total. destruct (sum_lines its) as [t|].
  - destruct (storable its); split.
    + intros [= <-]. auto.
    + now intros [[= <-] _].
    + discriminate.
    + intros [_ Hf]. discriminate.
  - split; [discriminate | intros [Hf _]; discriminate].
Qed.

Lemma add_to_cart_existing env pid qty u db product cart :
  find_one (active_product pid) (products db) = Some product ->
  find_one (by_user (user_id_ u)) (carts db) = Some cart ->
  add_to_cart env pid qty u db =
  let items := added_lines pid qty (product_price product) (cart_items cart) in
  match stored_total items with
  | None => (Unhandled "OverflowError", db)
  | Some total =>
      (Ok (mkCartSummary "Item added to cart" (Z.of_nat (List.length items))),
       set_carts db (update_one (by_user (user_id_ u))
                                (set_cart items total (utcnow env 0%nat))
                                (carts db)))
  end.
Proof.
  intros Ep Ec. unfold add_to_cart, added_lines, stored_total. rewrite Ep, Ec.
  cbv zeta. destruct (sum_lines _); [|reflexivity].
  now destruct (storable _).
Qed.

Lemma add_to_cart_first env pid qty u db product :
  find_one (active_product pid) (products db) = Some product ->
  find_one (by_user (user_id_ u)) (carts db) = None ->
  add_to_cart env pid qty u db =
  let items := added_lines pid qty (product_price product) [] in
  let db1 := set_carts db (insert_one (new_Cart env (user_id_ u)) (carts db)) in
  match stored_total items with
  | None => (Unhandled "OverflowError", db1)
  | Some total =>
      (Ok (mkCartSummary "Item added to cart" (Z.of_nat (List.length items))),
       set_carts db1 (update_one (by_user (user_id_ u))
                                 (set_cart items total (utcnow env 2%nat))
                                 (carts db1)))
  end.
Proof.
  intros Ep Ec. unfold add_to_cart, added_lines, stored_total. rewrite Ep, Ec.
  cbv zeta. destruct (sum_lines _); [|reflexivity].
  now destruct (storable _).
Qed.

Lemma remove_from_cart_found env pid u db cart :
  find_one (by_user (user_id_ u)) (carts db) = Some cart ->
  remove_from_cart env pid u db =
  let items :=
    filter (fun it => negb (String.eqb (product_id it) pid)) (cart_items cart) in
  match stored_total items with
  | None => (Unhandled "OverflowError", db)
  | Some total =>
      (Ok "Item removed from cart",
       set_carts db (update_one (by_user (user_id_ u))
                                (set_cart items total (utcnow env 0%nat))
                                (carts db)))
  end.
Proof.
  intros Ec. unfold remove_from_cart, stored_total. rewrite Ec.
  cbv zeta. destruct (sum_lines _); [|reflexivity].
  now destruct (storable _).
Qed.

Lemma create_order_unfold env od u db :
  create_order env od u db =
  match stored_total (oc_items od) with
  | None => (Unhandled "OverflowError", db)
  | Some total =>
      let o := mkOrder (uuid4 env) (user_id_ u) (oc_items od) total "pending"
                       (oc_shipping_address od) (oc_payment_method od)
                       (utcnow env 0%nat) in
      (Ok o,
       set_carts (set_orders db (orders db ++ [o]))
         (update_one (by_user (user_id_ u))
                     (set_cart [] PyFloat.zero (utcnow env 1%nat)) (carts db)))
  end.
Proof.
  unfold create_order, stored_total.
  destruct (sum_lines _); [|reflexivity].
  now destruct (storable _).
Qed.

Lemma cart_of_updated uid db set :
  (forall c, by_user uid (set c) = by_user uid c) ->
  cart_of uid (set_carts db (update_one (by_user uid) set (carts db))) =
  option_map set (cart_of uid db).
Proof.
  intros Hs. unfold cart_of. simpl.
  apply find_one_update_one. intros d Hd. now rewrite Hs.
Qed.

Lemma cart_of_inserted uid db c :
  cart_of uid db = None -> cart_user_id c = uid ->
  cart_of uid (set_carts db (insert_one c (carts db))) = Some c.
Proof.
  unfold cart_of. simpl. intros E Hc.
  rewrite find_one_insert, E. unfold by_user. rewrite Hc.
  now rewrite String.eqb_refl.
Qed.

(** ** Every reachable cart is well formed *)

Lemma cart_ok_new env uid : cart_ok (new_Cart env uid).
Proof. split; [constructor | reflexivity]. Qed.

Lemma cart_ok_set its total now c :
  distinct_lines its -> sum_lines its = Some total ->
  cart_ok (set_cart its total now c).
Proof. intros. split; assumption. Qed.

Lemma carts_ok_insert db c :
  carts_ok db -> cart_ok c -> carts_ok (set_carts db (insert_one c (carts db))).
Proof.
  unfold carts_ok, insert_one. simpl. intros Hdb Hc.
  apply Forall_app. split; [exact Hdb | now constructor].
Qed.

Lemma carts_ok_update db uid its total now :
  carts_ok db -> distinct_lines its -> sum_lines its = Some total ->
  carts_ok (set_carts db (update_one (by_user uid) (set_cart its total now) (carts db))).
Proof.
  unfold carts_ok. simpl. intros Hdb Hd Hs.
  apply update_one_Forall; [|exact Hdb].
  intros d _ _. now apply cart_ok_set.
Qed.

Lemma carts_ok_get_cart env u db :
  carts_ok db -> carts_ok (snd (get_cart env u db)).
Proof.
  intros Hdb. unfold get_cart.
  destruct (find_one _ (carts db)); simpl; [exact Hdb|].
  apply carts_ok_insert; [exact Hdb | apply cart_ok_new].
Qed.

Lemma carts_ok_add_to_cart env pid qty u db :
  carts_ok db -> carts_ok (snd (add_to_cart env pid qty u db)).
Proof.
  intros Hdb.
  destruct (find_one (active_product pid) (products db)) as [product|] eqn:Ep.
  2: { now rewrite add_to_cart_no_product. }
  destruct (find_one (by_user (user_id_ u)) (carts db)) as [cart|] eqn:Ec.
  - rewrite (add_to_cart_existing _ _ _ _ _ _ _ Ep Ec). cbv zeta.
    destruct (stored_total _) as [total|] eqn:Es; simpl; [|exact Hdb].
    apply stored_total_some in Es as [Es _].
    apply carts_ok_update; auto.
    apply added_lines_distinct.
    apply find_one_In in Ec as [Hin _].
    unfold carts_ok in Hdb. rewrite Forall_forall in Hdb.
    now apply Hdb.
  - rewrite (add_to_cart_first _ _ _ _ _ _ Ep Ec). cbv zeta.
    assert (Hdb1 : carts_ok (set_carts db (insert_one (new_Cart env (user_id_ u)) (carts db)))).
    { apply carts_ok_insert; [exact Hdb | apply cart_ok_new]. }
    destruct (stored_total _) as [total|] eqn:Es; [|exact Hdb1].
    apply stored_total_some in Es as [Es _].
    cbn [snd]. apply carts_ok_update; auto.
    apply added_lines_distinct. constructor.
Qed.

Lemma carts_ok_remove_from_cart env pid u db :
  carts_ok db -> carts_ok (snd (remove_from_cart env pid u db)).
Proof.
  intros Hdb.
  destruct (find_one (by_user (user_id_ u)) (carts db)) as [cart|] eqn:Ec.
  2: { unfold remove_from_cart. now rewrite Ec. }
  rewrite (remove_from_cart_found _ _ _ _ _ Ec). cbv zeta.
  destruct (stored_total _) as [total|] eqn:Es; [|exact Hdb].
  apply stored_total_some in Es as [Es _].
  cbn [snd]. apply carts_ok_update; auto.
  apply filter_distinct_lines.
  apply find_one_In in Ec as [Hin _].
  unfold carts_ok in Hdb. rewrite Forall_forall in Hdb.
  now apply Hdb.
Qed.

Lemma carts_ok_create_order env od u db :
  carts_ok db -> carts_ok (snd (create_order env od u db)).
Proof.
  intros Hdb. rewrite create_order_unfold.
  destruct (stored_total (oc_items od)) as [total|]; [|exact Hdb].
  cbn [snd].
  apply (carts_ok_update (set_orders db _)); [exact Hdb | constructor | reflexivity].
Qed.

Lemma reachable_carts_ok (db : Db) : reachable db -> carts_ok db.
Proof.
  induction 1 as [| db us _ IH | db ps _ IH | env u db _ IH
                  | env pid qty u db _ IH | env pid u db _ IH
                  | env od u db _ IH].
  - constructor.
  - exact IH.
  - exact IH.
  - now apply carts_ok_get_cart.
  - now apply carts_ok_add_to_cart.
  - now apply carts_ok_remove_from_cart.
  - now apply carts_ok_create_order.
Qed.

(** ** Every reachable cart can be stored again *)

Lemma storable_update db uid its total now :
  Forall (fun c => storable (cart_items c) = true) (carts db) ->
  storable its = true ->
  Forall (fun c => storable (cart_items c) = true)
         (carts (set_carts db
                   (update_one (by_user uid) (set_cart its total now) (carts db)))).
Proof.
  intros Hdb Hs. simpl. apply update_one_Forall; [|exact Hdb].
  intros d _ _. exact Hs.
Qed.

Lemma storable_insert db env uid :
  Forall (fun c => storable (cart_items c) = true) (carts db) ->
  Forall (fun c => storable (cart_items c) = true)
         (carts (set_carts db (insert_one (new_Cart env uid) (carts db)))).
Proof.
  intros Hdb. simpl. unfold insert_one. apply Forall_app.
  split; [exact Hdb | now constructor].
Qed.

Lemma reachable_carts_storable (db : Db) :
  reachable db -> Forall (fun c => storable (cart_items c) = true) (carts db).
Proof.
  induction 1 as [| db us _ IH | db ps _ IH | env u db _ IH
                  | env pid qty u db _ IH | env pid u db _ IH
                  | env od u db _ IH].
  - constructor.
  - exact IH.
  - exact IH.
  - unfold get_cart. destruct (find_one _ (carts db)); cbn [snd];
      [exact IH | now apply storable_insert].
  - destruct (find_one (active_product pid) (products db)) as [product|] eqn:Ep.
    2: { now rewrite add_to_cart_no_product. }
    destruct (find_one (by_user (user_id_ u)) (carts db)) as [cart|] eqn:Ec.
    + rewrite (add_to_cart_existing _ _ _ _ _ _ _ Ep Ec). cbv zeta.
      destruct (stored_total _) as [total|] eqn:Es; cbn [snd]; [|exact IH].
      apply stored_total_some in Es as [_ Es]. now apply storable_update.
    + rewrite (add_to_cart_first _ _ _ _ _ _ Ep Ec). cbv zeta.
      destruct (stored_total _) as [total|] eqn:Es; cbn [snd];
        [|now apply storable_insert].
      apply stored_total_some in Es as [_ Es].
      apply storable_update; [now apply storable_insert | exact Es].
  - destruct (find_one (by_user (user_id_ u)) (carts db)) as [cart|] eqn:Ec.
    2: { unfold remove_from_cart. now rewrite Ec. }
    rewrite (remove_from_cart_found _ _ _ _ _ Ec). cbv zeta.
    destruct (stored_total _) as [total|] eqn:Es; cbn [snd]; [|exact IH].
    apply stored_total_some in Es as [_ Es]. now apply storable_update.
  - rewrite create_order_unfold.
    destruct (stored_total (oc_items od)) as [total|]; cbn [snd]; [|exact IH].
    now apply (storable_update (set_orders db _)).
Qed.

(** The account's cart, in a reachable state, can be written back as it is. *)
Lemma reachable_cart_stored (db : Db) (uid : string) (c : Cart) :
  reachable db -> cart_of uid db = Some c ->
  stored_total (cart_items c) = Some (cart_total_amount c).
Proof.
  intros Hr Hc. apply stored_total_some.
  apply find_one_In in Hc as [Hin _]. split.
  - apply reachable_carts_ok in Hr. unfold carts_ok in Hr.
    rewrite Forall_forall in Hr. now apply Hr.
  - apply reachable_carts_storable in Hr. rewrite Forall_forall in Hr.
    now apply Hr.
Qed.

Lemma looked_up_cart_stored env uid db :
  reachable db ->
  stored_total (cart_items (looked_up_cart env uid db))
  = Some (cart_total_amount (looked_up_cart env uid db)).
Proof.
  intros Hr. unfold looked_up_cart.
  destruct (cart_of uid db) as [c|] eqn:Ec; [|reflexivity].
  now apply (reachable_cart_stored db uid).
Qed.

(** ** The total as a sum over the lines *)

Lemma sum_from_fold (its : list CartItem) (acc total : float) :
  sum_from acc its = Some total <->
  exists amounts : list float,
    Forall2 (fun it a => PyFloat.int_mul (quantity it) (price it) = Some a)
            its amounts /\
    total = fold_left PyFloat.add amounts acc.
Proof.
  revert acc. induction its as [|it its IH]; intros acc; simpl.
  - split.
    + intros [= <-]. exists []. split; [constructor | reflexivity].
    + intros [amounts [Hf ->]]. inversion Hf. reflexivity.
  - unfold line_amount. split.
    + destruct (PyFloat.int_mul (quantity it) (price it)) as [v|] eqn:Ev;
        [|discriminate].
      intros Hs. apply IH in Hs as [amounts [Hf ->]].
      exists (v :: amounts). split; [now constructor | reflexivity].
    + intros [amounts [Hf ->]].
      inversion Hf as [|? a ? amounts' Ha Hf']; subst.
      rewrite Ha. apply IH. exists amounts'. split; [exact Hf' | reflexivity].
Qed.

Lemma sum_lines_spec (its : list CartItem) (total : float) :
  sum_lines its = Some total <-> is_sum_of_lines its total.
Proof. apply sum_from_fold. Qed.

Lemma sum_from_defined (its : list CartItem) (acc : float) :
  Forall (fun it => PyFloat.of_int (quantity it) <> None) its ->
  exists total, sum_from acc its = Some total.
Proof.
  revert acc. induction its as [|it its IH]; intros acc Hq; simpl.
  - now exists acc.
  - inversion Hq as [|? ? Hit Hq']; subst.
    unfold line_amount, PyFloat.int_mul.
    destruct (PyFloat.of_int (quantity it)); [|contradiction].
    now apply IH.
Qed.

(** ** What a successful add leaves behind *)

Lemma add_to_cart_result env pid qty u db product total :
  find_one (active_product pid) (products db) = Some product ->
  let uid := user_id_ u in
  let items := added_lines pid qty (product_price product)
                           (cart_items (looked_up_cart env uid db)) in
  stored_total items = Some total ->
  fst (add_to_cart env pid qty u db) =
    Ok (mkCartSummary "Item added to cart" (Z.of_nat (List.length items))) /\
  (exists c, cart_of uid (snd (add_to_cart env pid qty u db)) = Some c /\
             cart_items c = items /\ cart_total_amount c = total /\
             cart_user_id c = cart_user_id (looked_up_cart env uid db) /\
             cart_id c = cart_id (looked_up_cart env uid db)) /\
  products (snd (add_to_cart env pid qty u db)) = products db.
Proof.
  intros Ep uid items. subst items. unfold looked_up_cart.
  destruct (cart_of uid db) as [cart|] eqn:Ec; intros Hs.
  - rewrite (add_to_cart_existing _ _ _ _ _ _ _ Ep Ec). cbv zeta.
    rewrite Hs. cbn [fst snd]. repeat split.
    rewrite cart_of_updated by reflexivity.
    fold uid. rewrite Ec. simpl. eexists. split; [reflexivity|]. auto.
  - rewrite (add_to_cart_first _ _ _ _ _ _ Ep Ec). cbv zeta.
    simpl cart_items in Hs. rewrite Hs. cbn [fst snd]. repeat split.
    rewrite cart_of_updated by reflexivity.
    rewrite cart_of_inserted by (exact Ec || reflexivity).
    simpl. eexists. split; [reflexivity|]. auto.
Qed.

Lemma add_to_cart_ok_inv env pid qty u db s :
  fst (add_to_cart env pid qty u db) = Ok s ->
  exists product total,
    find_one (active_product pid) (products db) = Some product /\
    stored_total (added_lines pid qty (product_price product)
                    (cart_items (looked_up_cart env (user_id_ u) db))) = Some total.
Proof.
  intros Hok.
  destruct (find_one (active_product pid) (products db)) as [product|] eqn:Ep.
  2: { rewrite add_to_cart_no_product in Hok by exact Ep. discriminate. }
  exists product. unfold looked_up_cart.
  destruct (cart_of (user_id_ u) db) as [cart|] eqn:Ec.
  - rewrite (add_to_cart_existing _ _ _ _ _ _ _ Ep Ec) in Hok. cbv zeta in Hok.
    destruct (stored_total _) as [total|]; [|discriminate]. eauto.
  - rewrite (add_to_cart_first _ _ _ _ _ _ Ep Ec) in Hok. cbv zeta in Hok.
    simpl cart_items.
    destruct (stored_total _) as [total|]; [|discriminate]. eauto.
Qed.

Lemma looked_up_cart_ok env uid db :
  carts_ok db -> cart_ok (looked_up_cart env uid db).
Proof.
  intros Hdb. unfold looked_up_cart, cart_of.
  destruct (find_one _ _) as [c|] eqn:Ec; [|apply cart_ok_new].
  apply find_one_In in Ec as [Hin _].
  unfold carts_ok in Hdb. rewrite Forall_forall in Hdb. auto.
Qed.

(** ** The claims about carts *)

Lemma reachable_shop : reachable Sample.shop.
Proof.
  exact (reach_users _ [Sample.alice; Sample.bob]
           (reach_products _ [Sample.wig] reach_empty)).
Qed.

(** C2: after every cart-mutating operation (lazy creation on get, add,
    remove, the clearing step of order placement) run on a state the store
    can be in, every persisted cart has at most one line per product
    identifier, and its total amount is the sum over its lines of quantity
    times captured price. *)
Theorem cart_invariant_after_mutation
    (db : Db) (env : Env) (u : User) (db' : Db) (c : Cart) :
  reachable db ->
  (db' = snd (get_cart env u db) \/
   (exists pid qty, db' = snd (add_to_cart env pid qty u db)) \/
   (exists pid, db' = snd (remove_from_cart env pid u db)) \/
   (exists od, db' = snd (create_order env od u db))) ->
  In c (carts db') ->
  NoDup (map product_id (cart_items c)) /\
  is_sum_of_lines (cart_items c) (cart_total_amount c).
Proof.
  intros Hr Hop Hc.
  assert (Hr' : reachable db').
  { destruct Hop as [-> | [[pid [qty ->]] | [[pid ->] | [od ->]]]].
    - now apply reach_get_cart.
    - now apply reach_add_to_cart.
    - now apply reach_remove_from_cart.
    - now apply reach_create_order. }
  apply reachable_carts_ok in Hr'.
  unfold carts_ok in Hr'. rewrite Forall_forall in Hr'.
  destruct (Hr' c Hc) as [Hd Hs].
  split; [exact Hd | now apply sum_lines_spec].
Qed.

Lemma cart_invariant_after_mutation_witness :
  let c := mkCart "c-1" "alice" [mkCartItem "wig" 2 Sample.ten] Sample.twenty 100 102 in
  NoDup (map product_id (cart_items c)) /\
  is_sum_of_lines (cart_items c) (cart_total_amount c).
Proof.
  intros c.
  apply (cart_invariant_after_mutation
           Sample.shop (Sample.env "c-1" 100) Sample.alice
           (snd (add_to_cart (Sample.env "c-1" 100) "wig" 2 Sample.alice Sample.shop))
           c reachable_shop).
  - right. left. exists "wig", 2. reflexivity.
  - vm_compute. left. reflexivity.
Defined.

(** C10: for every successful add-to-cart call, [total_items] of the
    returned summary is the number of lines of the cart after the add, which
    is its number of distinct product identifiers. *)
Theorem add_to_cart_total_items
    (env : Env) (pid : string) (qty : Z) (u : User) (db : Db) (s : CartSummary) :
  reachable db ->
  fst (add_to_cart env pid qty u db) = Ok s ->
  exists c,
    cart_of (user_id_ u) (snd (add_to_cart env pid qty u db)) = Some c /\
    total_items s = Z.of_nat (List.length (cart_items c)) /\
    total_items s =
      Z.of_nat (List.length (nodup string_dec (map product_id (cart_items c)))).
Proof.
  intros Hr Hok.
  destruct (add_to_cart_ok_inv _ _ _ _ _ _ Hok) as [product [total [Ep Hs]]].
  destruct (add_to_cart_result _ _ _ _ _ _ _ Ep Hs) as [Hfst [[c [Hc [Hi _]]] _]].
  rewrite Hfst in Hok. injection Hok as <-.
  exists c. split; [exact Hc|]. rewrite Hi. simpl total_items.
  split; [reflexivity|].
  rewrite nodup_fixed_point, length_map; [reflexivity|].
  apply added_lines_distinct.
  apply (looked_up_cart_ok env (user_id_ u) db (reachable_carts_ok db Hr)).
Qed.

Lemma add_to_cart_total_items_witness :
  exists c,
    cart_of "alice"
      (snd (add_to_cart (Sample.env "c-1" 100) "wig" 2 Sample.alice Sample.shop))
      = Some c /\
    1 = Z.of_nat (List.length (cart_items c)) /\
    1 = Z.of_nat (List.length (nodup string_dec (map product_id (cart_items c)))).
Proof.
  exact (add_to_cart_total_items (Sample.env "c-1" 100) "wig" 2 Sample.alice
           Sample.shop (mkCartSummary "Item added to cart" 1)
           reachable_shop eq_refl).
Defined.

(** Two wigs in one line: [total_items] is 1, the quantities sum to 2. *)
Lemma total_items_is_not_the_quantity_sum :
  fst (add_to_cart (Sample.env "c-1" 100) "wig" 2 Sample.alice Sample.shop)
    = Ok (mkCartSummary "Item added to cart" 1) /\
  option_map (fun c => fold_right Z.add 0 (map quantity (cart_items c)))
    (cart_of "alice"
       (snd (add_to_cart (Sample.env "c-1" 100) "wig" 2 Sample.alice Sample.shop)))
    = Some 2.
Proof. split; reflexivity. Qed.

Lemma cart_of_set_products uid db ps :
  cart_of uid (set_products db ps) = cart_of uid db.
Proof. reflexivity. Qed.

Lemma looked_up_cart_empty env uid db :
  (forall c, cart_of uid db = Some c -> cart_items c = []) ->
  cart_items (looked_up_cart env uid db) = [].
Proof.
  intros He. unfold looked_up_cart.
  destruct (cart_of uid db) as [c|]; [now apply He | reflexivity].
Qed.

Lemma looked_up_cart_found env uid db c :
  cart_of uid db = Some c -> looked_up_cart env uid db = c.
Proof. intros E. unfold looked_up_cart. now rewrite E. Qed.

Lemma added_lines_first pid qty p : added_lines pid qty p [] = [mkCartItem pid qty p].
Proof. reflexivity. Qed.

Lemma added_lines_same pid q0 p0 qty p :
  added_lines pid qty p [mkCartItem pid q0 p0] = [mkCartItem pid (q0 + qty) p0].
Proof.
  unfold added_lines, existing_item, bump_quantity. simpl.
  now rewrite String.eqb_refl.
Qed.

(** C1: on an account whose cart is empty, [add(acct, p, 2)] then
    [add(acct, p, 3)] leave one line for [p], of quantity 5 and of the price
    [p] had in the catalog at the first add, and a total of 5 times that
    price, whatever the catalog becomes between and after the two adds (as
    long as it still offers [p] at the second add). *)
Theorem add_twice_merges_and_keeps_price
    (env1 env2 : Env) (u : User) (db : Db) (pid : string)
    (p p' : Product) (ps1 ps2 : list Product) :
  (forall c, cart_of (user_id_ u) db = Some c -> cart_items c = []) ->
  find_one (active_product pid) (products db) = Some p ->
  find_one (active_product pid) ps1 = Some p' ->
  let add1 := add_to_cart env1 pid 2 u db in
  let add2 := add_to_cart env2 pid 3 u (set_products (snd add1) ps1) in
  is_ok (fst add1) = true /\ is_ok (fst add2) = true /\
  exists c five_p,
    cart_of (user_id_ u) (set_products (snd add2) ps2) = Some c /\
    cart_items c = [mkCartItem pid 5 (product_price p)] /\
    PyFloat.int_mul 5 (product_price p) = Some five_p /\
    PyFloat.same (cart_total_amount c) five_p = true.
Proof.
  intros Hempty Ep Ep' add1 add2.
  (* the first add *)
  assert (H1 : stored_total (added_lines pid 2 (product_price p)
                (cart_items (looked_up_cart env1 (user_id_ u) db)))
               = Some (PyFloat.add PyFloat.zero
                         (PyFloat.mul (S754_finite false 4503599627370496 (-51)) (product_price p)))).
  { rewrite (looked_up_cart_empty env1 (user_id_ u) db Hempty). reflexivity. }
  destruct (add_to_cart_result _ _ _ _ _ _ _ Ep H1)
    as [Hr1 [[c1 [Hc1 [Hi1 _]]] _]].
  fold add1 in Hr1, Hc1.
  rewrite (looked_up_cart_empty env1 (user_id_ u) db Hempty), added_lines_first in Hi1.
  (* the second add, on the edited catalog *)
  set (db1 := set_products (snd add1) ps1) in *.
  assert (Hc1' : cart_of (user_id_ u) db1 = Some c1) by exact Hc1.
  assert (H2 : stored_total (added_lines pid 3 (product_price p')
                (cart_items (looked_up_cart env2 (user_id_ u) db1)))
               = Some (PyFloat.add PyFloat.zero
                         (PyFloat.mul (S754_finite false 5629499534213120 (-50)) (product_price p)))).
  { rewrite (looked_up_cart_found env2 (user_id_ u) db1 c1 Hc1'), Hi1, added_lines_same.
    reflexivity. }
  destruct (add_to_cart_result env2 pid 3 u db1 p' _ Ep' H2)
    as [Hr2 [[c2 [Hc2 [Hi2 [Ht2 _]]]] _]].
  fold add2 in Hr2, Hc2.
  rewrite (looked_up_cart_found env2 (user_id_ u) db1 c1 Hc1'), Hi1, added_lines_same in Hi2.
  split; [now rewrite Hr1|]. split; [now rewrite Hr2|].
  exists c2, (PyFloat.mul (S754_finite false 5629499534213120 (-50)) (product_price p)).
  rewrite cart_of_set_products.
  split; [exact Hc2|]. split; [exact Hi2|]. split; [reflexivity|].
  rewrite Ht2. apply same_zero_add.
Qed.

Lemma add_twice_merges_and_keeps_price_witness :
  let add1 := add_to_cart (Sample.env "c-1" 100) "wig" 2 Sample.alice Sample.shop in
  let add2 := add_to_cart (Sample.env "c-2" 200) "wig" 3 Sample.alice
                (set_products (snd add1) [Sample.wig_repriced]) in
  is_ok (fst add1) = true /\ is_ok (fst add2) = true /\
  exists c five_p,
    cart_of "alice" (set_products (snd add2) []) = Some c /\
    cart_items c = [mkCartItem "wig" 5 Sample.ten] /\
    PyFloat.int_mul 5 Sample.ten = Some five_p /\
    PyFloat.same (cart_total_amount c) five_p = true.
Proof.
  apply (add_twice_merges_and_keeps_price
           (Sample.env "c-1" 100) (Sample.env "c-2" 200) Sample.alice Sample.shop
           "wig" Sample.wig Sample.wig_repriced [Sample.wig_repriced] []).
  - intros c Hc. vm_compute in Hc. discriminate.
  - reflexivity.
  - reflexivity.
Defined.

(** C9: get-cart always succeeds with the account's cart; on first access it
    creates and persists an empty one (no line, total 0.0); a second call on
    the resulting state returns the same cart and leaves the store as it is. *)
Theorem get_cart_idempotent (env : Env) (u : User) (db : Db) :
  exists c,
    fst (get_cart env u db) = Ok c /\
    cart_user_id c = user_id_ u /\
    cart_of (user_id_ u) (snd (get_cart env u db)) = Some c /\
    (forall c0, cart_of (user_id_ u) db = Some c0 ->
       c = c0 /\ snd (get_cart env u db) = db) /\
    (cart_of (user_id_ u) db = None ->
       cart_items c = [] /\ cart_total_amount c = PyFloat.zero /\
       snd (get_cart env u db) = set_carts db (carts db ++ [c])) /\
    (forall env',
       get_cart env' u (snd (get_cart env u db))
       = (Ok c, snd (get_cart env u db))).
Proof.
  unfold get_cart, cart_of.
  destruct (find_one (by_user (user_id_ u)) (carts db)) as [c0|] eqn:Ec.
  - exists c0. cbn [fst snd]. rewrite Ec.
    split; [reflexivity|]. split.
    { apply find_one_In in Ec as [_ Hq]. now apply String.eqb_eq in Hq. }
    split; [reflexivity|]. split.
    { intros c1 [= <-]. now split. }
    split; [discriminate | reflexivity].
  - exists (new_Cart env (user_id_ u)). cbn [fst snd].
    assert (Hnew : find_one (by_user (user_id_ u))
                     (carts (set_carts db (insert_one (new_Cart env (user_id_ u)) (carts db))))
                   = Some (new_Cart env (user_id_ u))).
    { apply cart_of_inserted; [exact Ec | reflexivity]. }
    rewrite Hnew.
    split; [reflexivity|]. split; [reflexivity|]. split; [reflexivity|].
    split; [discriminate|]. split; [|reflexivity].
    intros _. now repeat split.
Qed.

Lemma cart_of_other_updated uid uid' db set :
  uid' <> uid ->
  (forall c, cart_user_id (set c) = cart_user_id c) ->
  cart_of uid' (set_carts db (update_one (by_user uid) set (carts db))) =
  cart_of uid' db.
Proof.
  intros Hne Hs. unfold cart_of. simpl.
  induction (carts db) as [|c cs IH]; simpl; [reflexivity|].
  destruct (by_user uid c) eqn:Hu; simpl.
  - unfold by_user in *. rewrite Hs.
    apply String.eqb_eq in Hu.
    destruct (String.eqb_spec (cart_user_id c) uid'); [congruence | reflexivity].
  - now rewrite IH.
Qed.

(** C8, as the code has it: for an account with a cart, in a state the store
    can be in, and a product that is not in the cart, remove succeeds with
    its message and leaves the lines, the total amount, the identifier, the
    owner and the creation time of the cart as they were; [updated_at] is
    set to the time of the call.  The other carts and collections stay. *)
Theorem remove_absent_keeps_lines
    (env : Env) (pid : string) (u : User) (db : Db) (c : Cart) :
  reachable db ->
  cart_of (user_id_ u) db = Some c ->
  ~ In pid (map product_id (cart_items c)) ->
  let after := snd (remove_from_cart env pid u db) in
  fst (remove_from_cart env pid u db) = Ok "Item removed from cart" /\
  cart_of (user_id_ u) after =
    Some (mkCart (cart_id c) (cart_user_id c) (cart_items c)
                 (cart_total_amount c) (cart_created_at c) (utcnow env 0%nat)) /\
  (forall uid', uid' <> user_id_ u -> cart_of uid' after = cart_of uid' db) /\
  users after = users db /\ products after = products db /\
  orders after = orders db.
Proof.
  intros Hr Hc Habs after. subst after.
  pose proof (reachable_cart_stored db (user_id_ u) c Hr Hc) as Hst.
  unfold cart_of in Hc.
  rewrite (remove_from_cart_found _ _ _ _ _ Hc). cbv zeta.
  rewrite (filter_absent pid (cart_items c) Habs), Hst. cbn [fst snd].
  split; [reflexivity|]. split.
  - rewrite cart_of_updated by reflexivity. unfold cart_of. now rewrite Hc.
  - split; [|repeat split].
    intros uid' Hne. now apply cart_of_other_updated.
Qed.

Lemma remove_absent_keeps_lines_witness :
  let db := snd (get_cart (Sample.env "c-1" 100) Sample.alice Sample.shop) in
  let after := snd (remove_from_cart (Sample.env "r" 500) "wig" Sample.alice db) in
  fst (remove_from_cart (Sample.env "r" 500) "wig" Sample.alice db)
    = Ok "Item removed from cart" /\
  cart_of "alice" after = Some (mkCart "c-1" "alice" [] PyFloat.zero 100 500) /\
  (forall uid', uid' <> "alice" -> cart_of uid' after = cart_of uid' db) /\
  users after = users db /\ products after = products db /\
  orders after = orders db.
Proof.
  exact (remove_absent_keeps_lines (Sample.env "r" 500) "wig" Sample.alice
           (snd (get_cart (Sample.env "c-1" 100) Sample.alice Sample.shop))
           (mkCart "c-1" "alice" [] PyFloat.zero 100 101)
           (reach_get_cart _ _ _ reachable_shop) eq_refl (fun H => H)).
Defined.

(** C8 as stated fails: a cart created at time 100 (so updated at 101) and
    never filled; removing a product it does not hold, at time 500, succeeds
    and stores a cart that differs from the one before, in [updated_at]. *)
Lemma remove_absent_changes_updated_at :
  let db := snd (get_cart (Sample.env "c-1" 100) Sample.alice Sample.shop) in
  let before := mkCart "c-1" "alice" [] PyFloat.zero 100 101 in
  let after := mkCart "c-1" "alice" [] PyFloat.zero 100 500 in
  cart_of "alice" db = Some before /\
  existing_item "wig" (cart_items before) = None /\
  fst (remove_from_cart (Sample.env "r" 500) "wig" Sample.alice db)
    = Ok "Item removed from cart" /\
  cart_of "alice" (snd (remove_from_cart (Sample.env "r" 500) "wig" Sample.alice db))
    = Some after /\
  after <> before /\
  cart_updated_at after <> cart_updated_at before.
Proof.
  cbv zeta. repeat split; try reflexivity; discriminate.
Qed.

(** ** The claims about orders *)

Lemma stored_total_defined (its : list CartItem) :
  Forall (fun it => - 2 ^ 63 <= quantity it < 2 ^ 63) its ->
  exists total, stored_total its = Some total.
Proof.
  intros Hq.
  assert (Hs : storable its = true).
  { unfold storable. apply forallb_forall. rewrite Forall_forall in Hq.
    intros it Hin. apply bson_int_range. now apply Hq. }
  destruct (sum_from_defined its PyFloat.zero) as [total Ht].
  { rewrite Forall_forall in *. intros it Hin.
    apply of_int_bson. apply bson_int_range. now apply Hq. }
  exists total. apply stored_total_some. now split.
Qed.




(** Two wigs at 10.0 and a clip at 5.0 are worth 25.0; the cart that held
    two wigs is emptied and keeps its identifier and creation time. *)
Lemma create_order_sample_total :
  let placed :=
    create_order (Sample.env "o-1" 7) Sample.two_line_order Sample.alice
                 Sample.shop_with_cart in
  option_map order_total_amount
    (match fst placed with Ok o => Some o | _ => None end)
  = PyFloat.of_int 25 /\
  cart_of "alice" (snd placed)
  = Some (mkCart "c-1" "alice" [] PyFloat.zero 100 8).
Proof. split; vm_compute; reflexivity. Qed.

Lemma get_order_cases (oid : string) (u : User) (db : Db) :
  match get_order oid u db with
  | Ok o => In o (orders db) /\ order_id o = oid /\ order_user_id o = user_id_ u
  | HTTPException code detail =>
      code = 404 /\ detail = "Order not found" /\
      forall o, In o (orders db) -> order_id o = oid ->
                order_user_id o <> user_id_ u
  | Unhandled _ => False
  end.
Proof.
  unfold get_order.
  destruct (find_one _ (orders db)) as [o|] eqn:Eo.
  - apply find_one_In in Eo as [Hin Hq]. unfold owned_order in Hq.
    apply andb_true_iff in Hq as [H1 H2].
    apply String.eqb_eq in H1, H2. auto.
  - split; [reflexivity|]. split; [reflexivity|].
    intros o Hin Hid Hown.
    pose proof (find_one_none _ _ Eo o Hin) as Hq. unfold owned_order in Hq.
    rewrite <- Hid, <- Hown, !String.eqb_refl in Hq. discriminate.
Qed.

Lemma unique_order_id (db : Db) (o o' : Order) :
  NoDup (map order_id (orders db)) ->
  In o (orders db) -> In o' (orders db) -> order_id o = order_id o' -> o = o'.
Proof.
  induction (orders db) as [|a l IH]; simpl; intros Hn Ho Ho' Hid; [contradiction|].
  inversion Hn as [|? ? Ha Hl]; subst.
  destruct Ho as [<- | Ho], Ho' as [<- | Ho'].
  - reflexivity.
  - exfalso. apply Ha. rewrite Hid. now apply in_map.
  - exfalso. apply Ha. rewrite <- Hid. now apply in_map.
  - now apply IH.
Qed.

(** C7: with order identifiers unique, fetching an order by identifier as
    some account fails NotFound exactly when no order has that identifier
    or the order that has it is owned by a different account; an order of
    account A fetched as account B fails NotFound, and the owner's fetch
    returns the order. *)
Theorem get_order_not_found_iff (oid : string) (u : User) (db : Db) :
  NoDup (map order_id (orders db)) ->
  (get_order oid u db = HTTPException 404 "Order not found" <->
   (~ (exists o, In o (orders db) /\ order_id o = oid) \/
    (exists o, In o (orders db) /\ order_id o = oid /\
               order_user_id o <> user_id_ u))) /\
  (forall o b, In o (orders db) -> order_user_id o <> user_id_ b ->
     get_order (order_id o) b db = HTTPException 404 "Order not found") /\
  (forall o a, In o (orders db) -> order_user_id o = user_id_ a ->
     get_order (order_id o) a db = Ok o).
Proof.
  intros Hn.
  assert (Hother : forall o b, In o (orders db) -> order_user_id o <> user_id_ b ->
            get_order (order_id o) b db = HTTPException 404 "Order not found").
  { intros o b Hin Hne.
    pose proof (get_order_cases (order_id o) b db) as Hc.
    destruct (get_order (order_id o) b db) as [o' | code detail | e];
      [| destruct Hc as [-> [-> _]]; reflexivity | contradiction].
    destruct Hc as [Hin' [Hid Hown]].
    rewrite (unique_order_id db o' o Hn Hin' Hin Hid) in Hown. contradiction. }
  assert (Hown : forall o a, In o (orders db) -> order_user_id o = user_id_ a ->
            get_order (order_id o) a db = Ok o).
  { intros o a Hin Ha.
    pose proof (get_order_cases (order_id o) a db) as Hc.
    destruct (get_order (order_id o) a db) as [o' | code detail | e];
      [| destruct Hc as [_ [_ Hc]]; exfalso; now apply (Hc o) | contradiction].
    destruct Hc as [Hin' [Hid _]].
    now rewrite (unique_order_id db o' o Hn Hin' Hin Hid). }
  split; [|split; assumption].
  split.
  - intros Hnf.
    pose proof (get_order_cases oid u db) as Hc. rewrite Hnf in Hc.
    destruct Hc as [_ [_ Hc]].
    destruct (find_one (fun o => String.eqb (order_id o) oid) (orders db))
      as [o|] eqn:Eo.
    + right. apply find_one_In in Eo as [Hin Hq]. apply String.eqb_eq in Hq.
      exists o. auto.
    + left. intros [o [Hin Hid]].
      pose proof (find_one_none _ _ Eo o Hin) as Hq. simpl in Hq.
      rewrite Hid, String.eqb_refl in Hq. discriminate.
  - intros [Hno | [o [Hin [Hid Hne]]]].
    + pose proof (get_order_cases oid u db) as Hc.
      destruct (get_order oid u db) as [o | code detail | e];
        [| destruct Hc as [-> [-> _]]; reflexivity | contradiction].
      exfalso. apply Hno. exists o. tauto.
    + rewrite <- Hid. now apply Hother.
Qed.

Lemma get_order_not_found_iff_witness :
  (get_order "o-1" Sample.bob Sample.shop_with_order
     = HTTPException 404 "Order not found" <->
   (~ (exists o, In o [Sample.order_a] /\ order_id o = "o-1") \/
    (exists o, In o [Sample.order_a] /\ order_id o = "o-1" /\
               order_user_id o <> "bob"))) /\
  get_order "o-1" Sample.bob Sample.shop_with_order
    = HTTPException 404 "Order not found" /\
  get_order "o-1" Sample.alice Sample.shop_with_order = Ok Sample.order_a.
Proof.
  destruct (get_order_not_found_iff "o-1" Sample.bob Sample.shop_with_order)
    as [Hiff [Hother Hown]].
  - simpl. constructor; [intros [] | constructor].
  - split; [exact Hiff|]. split.
    + apply (Hother Sample.order_a Sample.bob); [now left | discriminate].
    + reflexivity.
Defined.

(** ** The claims about tokens and accounts *)

Lemma dict_get_update (k : string) (v : claim) (d : payload) :
  dict_get k (dict_update k v d) = Some v.
Proof.
  induction d as [|[k' v'] d IH]; simpl.
  - now rewrite String.eqb_refl.
  - destruct (String.eqb k' k) eqn:E; simpl.
    + now rewrite String.eqb_refl.
    + now rewrite E.
Qed.

Lemma dict_get_update_other (k k' : string) (v : claim) (d : payload) :
  k' <> k -> dict_get k' (dict_update k v d) = dict_get k' d.
Proof.
  intros Hne. induction d as [|[k0 v0] d IH]; simpl.
  - destruct (String.eqb_spec k k'); [congruence | reflexivity].
  - destruct (String.eqb_spec k0 k) as [-> | Hk]; simpl.
    + destruct (String.eqb_spec k k'); [congruence | reflexivity].
    + now rewrite IH.
Qed.

Section AuthProperties.
Context `{Libraries}.

Lemma token_subject_ok_iff (env : Env) (tok : token) (s : claim) :
  token_subject env tok = Ok s <->
  exists claims signature expiry,
    tok = Jwt claims signature /\
    signature = hs256 JWT_SECRET claims /\
    dict_get "sub" claims = Some s /\
    dict_get "exp" claims = Some (Num expiry) /\
    utcnow env 0%nat < expiry.
Proof.
  unfold token_subject, jwt_decode. split.
  - destruct tok as [claims signature | raw]; [|discriminate].
    destruct (String.eqb_spec signature (hs256 JWT_SECRET claims)) as [Hs | Hs];
      simpl; [|discriminate].
    destruct (dict_get "exp" claims) as [[e | expiry]|] eqn:Ee; try discriminate.
    destruct (Z.ltb_spec (utcnow env 0%nat) expiry) as [Hlt | Hge];
      [|discriminate].
    destruct (dict_get "sub" claims) as [sub|] eqn:Es; [|discriminate].
    intros [= <-]. exists claims, signature, expiry. auto.
  - intros [claims [signature [expiry [-> [-> [Hsub [Hexp Hlt]]]]]]].
    rewrite String.eqb_refl. simpl. rewrite Hexp.
    apply Z.ltb_lt in Hlt. now rewrite Hlt, Hsub.
Qed.

Lemma token_subject_invalid (env : Env) (tok : token) :
  (exists s, token_subject env tok = Ok s) \/
  token_subject env tok = HTTPException 401 "Invalid token".
Proof.
  unfold token_subject.
  destruct (jwt_decode tok JWT_SECRET (utcnow env 0%nat)) as [claims|];
    [|now right].
  destruct (dict_get "sub" claims) as [s|]; [left; now exists s | now right].
Qed.

Lemma issued_token (issue : Env) (uid : string) :
  create_access_token issue [("sub", Str uid)] =
  Jwt [("sub", Str uid); ("exp", Num (utcnow issue 0%nat + 24 * 3600))]
      (hs256 JWT_SECRET
         [("sub", Str uid); ("exp", Num (utcnow issue 0%nat + 24 * 3600))]).
Proof. reflexivity. Qed.

Lemma issued_token_subject (issue env : Env) (uid : string) :
  token_subject env (create_access_token issue [("sub", Str uid)]) =
  if utcnow env 0%nat <? utcnow issue 0%nat + 24 * 3600
  then Ok (Str uid)
  else HTTPException 401 "Invalid token".
Proof.
  rewrite issued_token. unfold token_subject, jwt_decode.
  rewrite String.eqb_refl. cbn [negb dict_get String.eqb Ascii.eqb Bool.eqb].
  simpl dict_get.
  now destruct (utcnow env 0%nat <? utcnow issue 0%nat + 24 * 3600).
Qed.

(** C4: validation succeeds with the embedded subject exactly when the
    token is well formed, its signature verifies under the shared secret,
    it embeds a subject, and the current time is before the embedded
    expiry; otherwise it fails as Invalid.  A token is issued with an
    expiry of now plus 24 hours: it validates to the issuing account's
    identifier at once and until then, and fails from then on; the token
    a login returns validates at once to the account it returns. *)
Theorem token_validation (env : Env) (tok : token) :
  (forall s,
     token_subject env tok = Ok s <->
     exists claims signature expiry,
       tok = Jwt claims signature /\
       signature = hs256 JWT_SECRET claims /\
       dict_get "sub" claims = Some s /\
       dict_get "exp" claims = Some (Num expiry) /\
       utcnow env 0%nat < expiry) /\
  ((exists s, token_subject env tok = Ok s) \/
   token_subject env tok = HTTPException 401 "Invalid token") /\
  (forall issue uid,
     let issued := create_access_token issue [("sub", Str uid)] in
     (exists claims,
        issued = Jwt claims (hs256 JWT_SECRET claims) /\
        dict_get "sub" claims = Some (Str uid) /\
        dict_get "exp" claims = Some (Num (utcnow issue 0%nat + 24 * 3600))) /\
     token_subject issue issued = Ok (Str uid) /\
     (utcnow env 0%nat < utcnow issue 0%nat + 24 * 3600 ->
      token_subject env issued = Ok (Str uid)) /\
     (utcnow issue 0%nat + 24 * 3600 <= utcnow env 0%nat ->
      token_subject env issued = HTTPException 401 "Invalid token")) /\
  (forall user_data db r,
     login env user_data db = Ok r ->
     token_subject env (access_token r) = Ok (Str (ur_id (lr_user r)))).
Proof.
  split; [intros s; apply token_subject_ok_iff|].
  split; [apply token_subject_invalid|].
  split.
  - intros issue uid issued. subst issued. split; [|split; [|split]].
    + eexists. split; [apply issued_token|]. split; reflexivity.
    + rewrite issued_token_subject.
      destruct (Z.ltb_spec (utcnow issue 0%nat) (utcnow issue 0%nat + 24 * 3600));
        [reflexivity | lia].
    + intros Hlt. rewrite issued_token_subject.
      apply Z.ltb_lt in Hlt. now rewrite Hlt.
    + intros Hge. rewrite issued_token_subject.
      apply Z.ltb_ge in Hge. now rewrite Hge.
  - intros user_data db r. unfold login.
    destruct (find_one _ (users db)) as [user|]; [|discriminate].
    destruct (verify_password _ _); simpl; [|discriminate].
    intros [= <-]. simpl. rewrite issued_token_subject.
    destruct (Z.ltb_spec (utcnow env 0%nat) (utcnow env 0%nat + 24 * 3600));
      [reflexivity | lia].
Qed.




End AuthProperties.


(** With the right password the login of the sample succeeds. *)
Lemma login_sample_succeeds :
  is_ok (@login Sample.libs (Sample.env "" 20)
           (mkUserLogin "alice@example.com" "pw-a") Sample.shop) = true.
Proof. reflexivity. Qed.

(** * Further properties of the routes *)

(** ** Adding to a cart *)

(** The lines of the other products. *)
Lemma filter_other_bump (pid : string) (q : Z) (its : list CartItem) :
  filter (fun it => negb (String.eqb (product_id it) pid)) (bump_quantity pid q its)
  = filter (fun it => negb (String.eqb (product_id it) pid)) its.
Proof.
  unfold bump_quantity. induction its as [|it its IH]; simpl; [reflexivity|].
  destruct (String.eqb (product_id it) pid) eqn:E; simpl.
  - now rewrite E.
  - now rewrite E, IH.
Qed.

Lemma filter_other_added (pid : string) (qty : Z) (p : float) (its : list CartItem) :
  filter (fun it => negb (String.eqb (product_id it) pid)) (added_lines pid qty p its)
  = filter (fun it => negb (String.eqb (product_id it) pid)) its.
Proof.
  unfold added_lines. destruct (existing_item pid its).
  - apply filter_other_bump.
  - rewrite filter_app. simpl. rewrite String.eqb_refl. simpl. apply app_nil_r.
Qed.

Lemma existing_item_added (pid : string) (qty : Z) (p : float) (its : list CartItem) :
  existing_item pid (added_lines pid qty p its) =
  Some match existing_item pid its with
       | Some it => mkCartItem pid (quantity it + qty) (price it)
       | None => mkCartItem pid qty p
       end.
Proof.
  unfold added_lines.
  destruct (existing_item pid its) as [it0|] eqn:E.
  - unfold existing_item, bump_quantity in *.
    induction its as [|it its IH]; simpl in *; [discriminate|].
    destruct (String.eqb (product_id it) pid) eqn:Ei; simpl.
    + injection E as ->. rewrite Ei. apply String.eqb_eq in Ei. now rewrite Ei.
    + rewrite Ei. now apply IH.
  - unfold existing_item in *.
    induction its as [|it its IH]; simpl in *.
    + now rewrite String.eqb_refl.
    + destruct (String.eqb (product_id it) pid); [discriminate | now apply IH].
Qed.

Lemma added_lines_length (pid : string) (qty : Z) (p : float) (its : list CartItem) :
  List.length (added_lines pid qty p its) =
  match existing_item pid its with
  | Some _ => List.length its
  | None => S (List.length its)
  end.
Proof.
  unfold added_lines. destruct (existing_item pid its).
  - apply update_one_length.
  - rewrite length_app. simpl. lia.
Qed.

Lemma looked_up_cart_items env uid db :
  cart_items (looked_up_cart env uid db) =
  match cart_of uid db with Some c => cart_items c | None => [] end.
Proof. unfold looked_up_cart. now destruct (cart_of uid db). Qed.

Lemma looked_up_cart_total env uid db :
  cart_total_amount (looked_up_cart env uid db) =
  match cart_of uid db with Some c => cart_total_amount c | None => PyFloat.zero end.
Proof. unfold looked_up_cart. now destruct (cart_of uid db). Qed.

Lemma active_product_found (pid : string) (ps : list Product) :
  (exists p, find_one (active_product pid) ps = Some p) <->
  (exists p, In p ps /\ product_id_ p = pid /\ product_is_active p = true).
Proof.
  split.
  - intros [p Hp]. apply find_one_In in Hp as [Hin Hq].
    unfold active_product in Hq. apply andb_true_iff in Hq as [H1 H2].
    apply String.eqb_eq in H1. eauto.
  - intros [p [Hin [Hid Ha]]].
    destruct (find_one (active_product pid) ps) as [p'|] eqn:E; [eauto|].
    pose proof (find_one_none _ _ E p Hin) as Hq. unfold active_product in Hq.
    rewrite Hid, String.eqb_refl, Ha in Hq. discriminate.
Qed.

Lemma add_to_cart_found_answer env pid qty u db product :
  find_one (active_product pid) (products db) = Some product ->
  fst (add_to_cart env pid qty u db) = Unhandled "OverflowError" \/
  exists s, fst (add_to_cart env pid qty u db) = Ok s.
Proof.
  intros Ep.
  destruct (find_one (by_user (user_id_ u)) (carts db)) as [cart|] eqn:Ec.
  - rewrite (add_to_cart_existing _ _ _ _ _ _ _ Ep Ec). cbv zeta.
    destruct (stored_total _); simpl; eauto.
  - rewrite (add_to_cart_first _ _ _ _ _ _ Ep Ec). cbv zeta.
    destruct (stored_total _); simpl; eauto.
Qed.

(** X1: add-to-cart answers 404 "Product not found" exactly when the
    catalog holds no active product of that identifier, which is when
    get-product answers 404; the store is then left as it was, no cart is
    created. *)
Theorem add_to_cart_not_found_iff
    (env : Env) (pid : string) (qty : Z) (u : User) (db : Db) :
  (fst (add_to_cart env pid qty u db) = HTTPException 404 "Product not found" <->
   ~ exists p, In p (products db) /\ product_id_ p = pid /\
               product_is_active p = true) /\
  (fst (add_to_cart env pid qty u db) = HTTPException 404 "Product not found" <->
   get_product pid db = HTTPException 404 "Product not found") /\
  (fst (add_to_cart env pid qty u db) = HTTPException 404 "Product not found" ->
   snd (add_to_cart env pid qty u db) = db).
Proof.
  unfold get_product.
  destruct (find_one (active_product pid) (products db)) as [product|] eqn:Ep.
  - assert (Hno : fst (add_to_cart env pid qty u db)
                  <> HTTPException 404 "Product not found").
    { destruct (add_to_cart_found_answer env pid qty u db product Ep) as [-> | [s ->]];
        discriminate. }
    split; [|split].
    + split; [contradiction|]. intros Hn. exfalso. apply Hn.
      apply active_product_found. eauto.
    + split; [contradiction | discriminate].
    + contradiction.
  - rewrite (add_to_cart_no_product _ _ _ _ _ Ep). cbn [fst snd].
    split; [|split; [tauto | reflexivity]].
    split; [|reflexivity]. intros _ Hex.
    apply active_product_found in Hex as [p Hp]. congruence.
Qed.

(** X2: a successful add leaves the lines of the other products as they were,
    in their order; the product's line afterwards has the old quantity plus
    the added one at the old price, or, when the cart had no such line, the
    added quantity at the catalog price; the cart grows by at most one
    line. *)
Theorem add_to_cart_lines
    (env : Env) (pid : string) (qty : Z) (u : User) (db : Db) (s : CartSummary) :
  fst (add_to_cart env pid qty u db) = Ok s ->
  let before :=
    match cart_of (user_id_ u) db with Some c => cart_items c | None => [] end in
  exists product c,
    find_one (active_product pid) (products db) = Some product /\
    cart_of (user_id_ u) (snd (add_to_cart env pid qty u db)) = Some c /\
    filter (fun it => negb (String.eqb (product_id it) pid)) (cart_items c)
      = filter (fun it => negb (String.eqb (product_id it) pid)) before /\
    existing_item pid (cart_items c) =
      Some match existing_item pid before with
           | Some it => mkCartItem pid (quantity it + qty) (price it)
           | None => mkCartItem pid qty (product_price product)
           end /\
    List.length (cart_items c) =
      match existing_item pid before with
      | Some _ => List.length before
      | None => S (List.length before)
      end.
Proof.
  intros Hok before. subst before.
  destruct (add_to_cart_ok_inv _ _ _ _ _ _ Hok) as [product [total [Ep Hs]]].
  destruct (add_to_cart_result _ _ _ _ _ _ _ Ep Hs) as [_ [[c [Hc [Hi _]]] _]].
  exists product, c. rewrite <- (looked_up_cart_items env (user_id_ u) db).
  split; [exact Ep|]. split; [exact Hc|]. rewrite Hi.
  split; [apply filter_other_added|].
  split; [apply existing_item_added | apply added_lines_length].
Qed.

Lemma add_to_cart_lines_witness :
  exists product c,
    find_one (active_product "wig") [Sample.wig] = Some product /\
    cart_of "alice"
      (snd (add_to_cart (Sample.env "c-1" 100) "wig" (-3) Sample.alice Sample.shop))
      = Some c /\
    filter (fun it => negb (String.eqb (product_id it) "wig")) (cart_items c) = [] /\
    existing_item "wig" (cart_items c)
      = Some (mkCartItem "wig" (-3) (product_price product)) /\
    List.length (cart_items c) = 1%nat.
Proof.
  exact (add_to_cart_lines (Sample.env "c-1" 100) "wig" (-3) Sample.alice
           Sample.shop (mkCartSummary "Item added to cart" 1) eq_refl).
Defined.

Lemma cart_of_other_inserted uid' db c :
  cart_user_id c <> uid' ->
  cart_of uid' (set_carts db (insert_one c (carts db))) = cart_of uid' db.
Proof.
  intros Hne. unfold cart_of. simpl. rewrite find_one_insert.
  destruct (find_one (by_user uid') (carts db)); [reflexivity|].
  unfold by_user. destruct (String.eqb_spec (cart_user_id c) uid');
    [contradiction | reflexivity].
Qed.

(** X3: whatever it answers, add-to-cart leaves the users, the catalog and
    the orders as they were, and the cart of every other account; when it
    does not succeed, the account's stored cart is as it was too, and a cart
    it had to create holds no line. *)
Theorem add_to_cart_frame
    (env : Env) (pid : string) (qty : Z) (u : User) (db : Db) :
  let after := snd (add_to_cart env pid qty u db) in
  users after = users db /\ products after = products db /\
  orders after = orders db /\
  (forall uid', uid' <> user_id_ u -> cart_of uid' after = cart_of uid' db) /\
  (is_ok (fst (add_to_cart env pid qty u db)) = false ->
   match cart_of (user_id_ u) db with
   | Some c => cart_of (user_id_ u) after = Some c
   | None => forall c, cart_of (user_id_ u) after = Some c -> cart_items c = []
   end).
Proof.
  intros after. subst after.
  destruct (find_one (active_product pid) (products db)) as [product|] eqn:Ep.
  2: { rewrite (add_to_cart_no_product _ _ _ _ _ Ep). cbn [fst snd].
       repeat split; try reflexivity.
       intros _. destruct (cart_of (user_id_ u) db) as [c|] eqn:Ec;
         [reflexivity | discriminate]. }
  destruct (find_one (by_user (user_id_ u)) (carts db)) as [cart|] eqn:Ec.
  - rewrite (add_to_cart_existing _ _ _ _ _ _ _ Ep Ec). cbv zeta.
    unfold cart_of at 3. rewrite Ec.
    destruct (stored_total _) as [total|]; cbn [fst snd is_ok].
    + repeat split; try discriminate.
      intros uid' Hne. now apply cart_of_other_updated.
    + repeat split. intros _. exact Ec.
  - rewrite (add_to_cart_first _ _ _ _ _ _ Ep Ec). cbv zeta.
    unfold cart_of at 3. rewrite Ec.
    destruct (stored_total _) as [total|]; cbn [fst snd is_ok].
    + repeat split; try discriminate.
      intros uid' Hne. rewrite cart_of_other_updated by (auto || reflexivity).
      apply cart_of_other_inserted. simpl. congruence.
    + repeat split.
      * intros uid' Hne. apply cart_of_other_inserted. simpl. congruence.
      * intros _ c. rewrite cart_of_inserted by (exact Ec || reflexivity).
        now intros [= <-].
Qed.

(** ** Removing from a cart *)

Lemma sum_from_lines_defined (its : list CartItem) (acc total : float) :
  sum_from acc its = Some total ->
  Forall (fun it => line_amount it <> None) its.
Proof.
  revert acc. induction its as [|it its IH]; intros acc; simpl; [constructor|].
  destruct (line_amount it) as [v|] eqn:Ev; [|discriminate].
  intros Hs. constructor; [rewrite Ev; discriminate | now apply (IH _ Hs)].
Qed.

Lemma sum_from_of_defined (its : list CartItem) (acc : float) :
  Forall (fun it => line_amount it <> None) its ->
  exists total, sum_from acc its = Some total.
Proof.
  revert acc. induction its as [|it its IH]; intros acc Hd; simpl.
  - now exists acc.
  - inversion Hd as [|? ? Hit Hd']; subst. simpl in Hit.
    destruct (line_amount it); [now apply IH | contradiction].
Qed.

Lemma sum_lines_filter_defined (keep : CartItem -> bool) (its : list CartItem)
    (total : float) :
  sum_lines its = Some total ->
  exists total', sum_lines (filter keep its) = Some total'.
Proof.
  intros Hs. apply sum_from_of_defined.
  apply sum_from_lines_defined in Hs. rewrite Forall_forall in *.
  intros it Hin. apply filter_In in Hin as [Hin _]. auto.
Qed.

Lemma stored_total_filter_defined (keep : CartItem -> bool)
    (its : list CartItem) (total : float) :
  stored_total its = Some total ->
  exists total', stored_total (filter keep its) = Some total'.
Proof.
  intros Hst. apply stored_total_some in Hst as [Hs Hb].
  destruct (sum_lines_filter_defined keep its total Hs) as [total' Hs'].
  exists total'. apply stored_total_some. split; [exact Hs'|].
  unfold storable in *. apply forallb_forall. intros it Hin.
  apply filter_In in Hin as [Hin _].
  now apply (proj1 (forallb_forall _ _) Hb).
Qed.

Lemma existing_item_filtered (pid : string) (its : list CartItem) :
  existing_item pid
    (filter (fun it => negb (String.eqb (product_id it) pid)) its) = None.
Proof.
  unfold existing_item. induction its as [|it its IH]; simpl; [reflexivity|].
  destruct (String.eqb (product_id it) pid) eqn:E; simpl; [exact IH|].
  now rewrite E.
Qed.

Lemma reachable_cart_ok (db : Db) (uid : string) (c : Cart) :
  reachable db -> cart_of uid db = Some c -> cart_ok c.
Proof.
  intros Hr Hc. apply reachable_carts_ok in Hr. unfold carts_ok in Hr.
  rewrite Forall_forall in Hr. apply Hr. now apply (find_one_In _ _ _ Hc).
Qed.

(** X4: in a state the store can be in, remove-from-cart never raises: it
    answers 404 "Cart not found" and writes nothing when the account has no
    cart (it creates none), and otherwise succeeds; the cart then holds no
    line of the product, its other lines as they were and in their order,
    and the same identifier and creation time. *)
Theorem remove_from_cart_cases
    (env : Env) (pid : string) (u : User) (db : Db) :
  reachable db ->
  match cart_of (user_id_ u) db with
  | None =>
      remove_from_cart env pid u db = (HTTPException 404 "Cart not found", db)
  | Some c =>
      fst (remove_from_cart env pid u db) = Ok "Item removed from cart" /\
      exists c',
        cart_of (user_id_ u) (snd (remove_from_cart env pid u db)) = Some c' /\
        cart_items c' =
          filter (fun it => negb (String.eqb (product_id it) pid)) (cart_items c) /\
        existing_item pid (cart_items c') = None /\
        cart_id c' = cart_id c /\ cart_created_at c' = cart_created_at c
  end.
Proof.
  intros Hr.
  destruct (cart_of (user_id_ u) db) as [c|] eqn:Ec.
  2: { unfold remove_from_cart. unfold cart_of in Ec. now rewrite Ec. }
  pose proof (reachable_cart_stored db (user_id_ u) c Hr Ec) as Hst.
  destruct (stored_total_filter_defined
              (fun it => negb (String.eqb (product_id it) pid)) _ _ Hst)
    as [total' Hs'].
  unfold cart_of in Ec.
  rewrite (remove_from_cart_found _ _ _ _ _ Ec). cbv zeta.
  rewrite Hs'. cbn [fst snd]. split; [reflexivity|].
  rewrite cart_of_updated by reflexivity. unfold cart_of. rewrite Ec. simpl.
  eexists. split; [reflexivity|]. simpl.
  split; [reflexivity|]. split; [apply existing_item_filtered | now split].
Qed.

Lemma remove_from_cart_cases_witness :
  remove_from_cart (Sample.env "r" 500) "wig" Sample.alice Sample.shop
  = (HTTPException 404 "Cart not found", Sample.shop).
Proof.
  exact (remove_from_cart_cases (Sample.env "r" 500) "wig" Sample.alice
           Sample.shop reachable_shop).
Defined.

Lemma filter_other_appended (pid : string) (qty : Z) (p : float)
    (its : list CartItem) :
  existing_item pid its = None ->
  filter (fun it => negb (String.eqb (product_id it) pid))
         (its ++ [mkCartItem pid qty p]) = its.
Proof.
  intros Hn. rewrite filter_app. simpl. rewrite String.eqb_refl. simpl.
  rewrite app_nil_r. apply filter_absent. now apply existing_item_none.
Qed.

(** X5: in a state the store can be in, adding a product the cart does not
    hold and then removing it gives back the lines and the total the cart
    had (no line and a total of 0.0 when the add created the cart). *)
Theorem add_then_remove_restores
    (env1 env2 : Env) (pid : string) (qty : Z) (u : User) (db : Db)
    (s : CartSummary) :
  reachable db ->
  (forall c, cart_of (user_id_ u) db = Some c ->
             existing_item pid (cart_items c) = None) ->
  fst (add_to_cart env1 pid qty u db) = Ok s ->
  let added := snd (add_to_cart env1 pid qty u db) in
  fst (remove_from_cart env2 pid u added) = Ok "Item removed from cart" /\
  exists c',
    cart_of (user_id_ u) (snd (remove_from_cart env2 pid u added)) = Some c' /\
    cart_items c' =
      match cart_of (user_id_ u) db with Some c => cart_items c | None => [] end /\
    cart_total_amount c' =
      match cart_of (user_id_ u) db with
      | Some c => cart_total_amount c
      | None => PyFloat.zero
      end.
Proof.
  intros Hr Hnew Hok added. subst added.
  destruct (add_to_cart_ok_inv _ _ _ _ _ _ Hok) as [product [total [Ep Hs]]].
  destruct (add_to_cart_result _ _ _ _ _ _ _ Ep Hs) as [_ [[c1 [Hc1 [Hi1 _]]] _]].
  pose proof (looked_up_cart_stored env1 (user_id_ u) db Hr) as Hst0.
  assert (Hnone : existing_item pid
                    (cart_items (looked_up_cart env1 (user_id_ u) db)) = None).
  { unfold looked_up_cart.
    destruct (cart_of (user_id_ u) db) as [c|]; [now apply Hnew | reflexivity]. }
  unfold added_lines in Hi1. rewrite Hnone in Hi1.
  unfold cart_of in Hc1.
  rewrite (remove_from_cart_found _ _ _ _ _ Hc1). cbv zeta. rewrite Hi1.
  rewrite (filter_other_appended _ _ _ _ Hnone), Hst0. cbn [fst snd].
  split; [reflexivity|].
  rewrite cart_of_updated by reflexivity. unfold cart_of at 1. rewrite Hc1. simpl.
  eexists. split; [reflexivity|]. simpl.
  split; [apply looked_up_cart_items | apply looked_up_cart_total].
Qed.

Lemma add_then_remove_restores_witness :
  let added :=
    snd (add_to_cart (Sample.env "c-1" 100) "wig" 2 Sample.alice Sample.shop) in
  fst (remove_from_cart (Sample.env "r" 500) "wig" Sample.alice added)
    = Ok "Item removed from cart" /\
  exists c',
    cart_of "alice" (snd (remove_from_cart (Sample.env "r" 500) "wig"
                            Sample.alice added)) = Some c' /\
    cart_items c' = [] /\ cart_total_amount c' = PyFloat.zero.
Proof.
  apply (add_then_remove_restores (Sample.env "c-1" 100) (Sample.env "r" 500)
           "wig" 2 Sample.alice Sample.shop (mkCartSummary "Item added to cart" 1)
           reachable_shop).
  - intros c Hc. vm_compute in Hc. discriminate.
  - reflexivity.
Defined.

Lemma sum_from_snoc (its : list CartItem) (it : CartItem) (acc : float) :
  sum_from acc (its ++ [it]) =
  match sum_from acc its, line_amount it with
  | Some t, Some v => Some (PyFloat.add t v)
  | _, _ => None
  end.
Proof.
  revert acc. induction its as [|i its IH]; intros acc; simpl.
  - now destruct (line_amount it).
  - destruct (line_amount i); [apply IH|]. now destruct (line_amount it).
Qed.

(** X6: in a state the store can be in, a successful add of a product the
    cart does not hold raises the total by the amount of the new line: the
    new total is the old one plus quantity times the catalog price. *)
Theorem add_new_line_total
    (env : Env) (pid : string) (qty : Z) (u : User) (db : Db) (s : CartSummary) :
  reachable db ->
  (forall c, cart_of (user_id_ u) db = Some c ->
             existing_item pid (cart_items c) = None) ->
  fst (add_to_cart env pid qty u db) = Ok s ->
  exists product amount c',
    find_one (active_product pid) (products db) = Some product /\
    PyFloat.int_mul qty (product_price product) = Some amount /\
    cart_of (user_id_ u) (snd (add_to_cart env pid qty u db)) = Some c' /\
    cart_total_amount c' =
      PyFloat.add
        match cart_of (user_id_ u) db with
        | Some c => cart_total_amount c
        | None => PyFloat.zero
        end
        amount.
Proof.
  intros Hr Hnew Hok.
  destruct (add_to_cart_ok_inv _ _ _ _ _ _ Hok) as [product [total [Ep Hs]]].
  destruct (add_to_cart_result _ _ _ _ _ _ _ Ep Hs)
    as [_ [[c1 [Hc1 [_ [Ht1 _]]]] _]].
  pose proof (looked_up_cart_ok env (user_id_ u) db (reachable_carts_ok db Hr))
    as [_ Hsum0].
  assert (Hnone : existing_item pid
                    (cart_items (looked_up_cart env (user_id_ u) db)) = None).
  { unfold looked_up_cart.
    destruct (cart_of (user_id_ u) db) as [c|]; [now apply Hnew | reflexivity]. }
  unfold added_lines in Hs. rewrite Hnone in Hs.
  apply stored_total_some in Hs as [Hs _].
  unfold sum_lines in Hs, Hsum0. rewrite sum_from_snoc, Hsum0 in Hs.
  unfold line_amount in Hs. simpl in Hs.
  destruct (PyFloat.int_mul qty (product_price product)) as [amount|] eqn:Ea;
    [|discriminate].
  injection Hs as <-.
  exists product, amount, c1.
  split; [exact Ep|]. split; [exact Ea|]. split; [exact Hc1|].
  rewrite Ht1. now rewrite looked_up_cart_total.
Qed.

Lemma add_new_line_total_witness :
  exists product amount c',
    find_one (active_product "wig") [Sample.wig] = Some product /\
    PyFloat.int_mul 2 (product_price product) = Some amount /\
    cart_of "alice"
      (snd (add_to_cart (Sample.env "c-1" 100) "wig" 2 Sample.alice Sample.shop))
      = Some c' /\
    cart_total_amount c' = PyFloat.add PyFloat.zero amount.
Proof.
  apply (add_new_line_total (Sample.env "c-1" 100) "wig" 2 Sample.alice
           Sample.shop (mkCartSummary "Item added to cart" 1) reachable_shop).
  - intros c Hc. vm_compute in Hc. discriminate.
  - reflexivity.
Defined.

(** ** One cart per account *)

Lemma cart_of_none_owner (uid : string) (db : Db) :
  cart_of uid db = None -> ~ In uid (cart_owners db).
Proof.
  unfold cart_of, cart_owners. intros Hn Hin.
  apply in_map_iff in Hin as [c [Hc Hin]].
  pose proof (find_one_none _ _ Hn c Hin) as Hq. unfold by_user in Hq.
  rewrite Hc, String.eqb_refl in Hq. discriminate.
Qed.

Lemma owners_inserted (db : Db) (c : Cart) :
  cart_of (cart_user_id c) db = None ->
  NoDup (cart_owners db) ->
  NoDup (cart_owners (set_carts db (insert_one c (carts db)))).
Proof.
  intros Hn Hd. unfold cart_owners, insert_one. simpl. rewrite map_app. simpl.
  apply cart_of_none_owner in Hn. unfold cart_owners in Hn, Hd.
  apply NoDup_rev in Hd.
  assert (Hr : NoDup (rev (cart_user_id c :: rev (map cart_user_id (carts db))))).
  { apply NoDup_rev. constructor; [|exact Hd].
    intros Hin. apply Hn. now apply in_rev. }
  simpl in Hr. now rewrite rev_involutive in Hr.
Qed.

Lemma owners_updated (db : Db) (uid : string) (set : Cart -> Cart) :
  (forall c, cart_user_id (set c) = cart_user_id c) ->
  cart_owners (set_carts db (update_one (by_user uid) set (carts db)))
  = cart_owners db.
Proof. intros Hs. unfold cart_owners. simpl. now apply update_one_map. Qed.

Lemma owners_add_to_cart env pid qty u db :
  NoDup (cart_owners db) ->
  NoDup (cart_owners (snd (add_to_cart env pid qty u db))).
Proof.
  intros Hd.
  destruct (find_one (active_product pid) (products db)) as [product|] eqn:Ep.
  2: { now rewrite add_to_cart_no_product. }
  destruct (find_one (by_user (user_id_ u)) (carts db)) as [cart|] eqn:Ec.
  - rewrite (add_to_cart_existing _ _ _ _ _ _ _ Ep Ec). cbv zeta.
    destruct (stored_total _); cbn [snd]; [|exact Hd].
    now rewrite owners_updated.
  - rewrite (add_to_cart_first _ _ _ _ _ _ Ep Ec). cbv zeta.
    assert (Hi : NoDup (cart_owners
                   (set_carts db (insert_one (new_Cart env (user_id_ u)) (carts db))))).
    { apply owners_inserted; assumption. }
    destruct (stored_total _); cbn [snd]; [|exact Hi].
    now rewrite owners_updated.
Qed.

Lemma NoDup_map_unique {A B : Type} (f : A -> B) (l : list A) (x y : A) :
  NoDup (map f l) -> In x l -> In y l -> f x = f y -> x = y.
Proof.
  induction l as [|a l IH]; simpl; intros Hn Hx Hy E; [contradiction|].
  inversion Hn as [|? ? Ha Hl]; subst.
  destruct Hx as [Hx | Hx], Hy as [Hy | Hy].
  - congruence.
  - exfalso. apply Ha. apply in_map_iff. exists y. split; [congruence | exact Hy].
  - exfalso. apply Ha. apply in_map_iff. exists x. split; [congruence | exact Hx].
  - now apply IH.
Qed.

(** X7: every state the store can be in holds at most one cart per account:
    get-cart and add-to-cart create a cart only when the account has none,
    and no route changes a cart's owner.  The cart a route finds for an
    account is then the only one. *)
Theorem one_cart_per_account (db : Db) :
  reachable db ->
  NoDup (map cart_user_id (carts db)) /\
  (forall uid c c', In c (carts db) -> In c' (carts db) ->
     cart_user_id c = uid -> cart_user_id c' = uid -> c = c') /\
  (forall uid c, cart_of uid db = Some c <->
                 In c (carts db) /\ cart_user_id c = uid).
Proof.
  intros Hr.
  assert (Hd : NoDup (cart_owners db)).
  { induction Hr as [| db us _ IH | db ps _ IH | env u db _ IH
                     | env pid qty u db _ IH | env pid u db _ IH
                     | env od u db _ IH].
    - constructor.
    - exact IH.
    - exact IH.
    - unfold get_cart.
      destruct (find_one (by_user (user_id_ u)) (carts db)) eqn:Ec; cbn [snd];
        [exact IH | now apply owners_inserted].
    - now apply owners_add_to_cart.
    - destruct (find_one (by_user (user_id_ u)) (carts db)) as [cart|] eqn:Ec.
      2: { unfold remove_from_cart. now rewrite Ec. }
      rewrite (remove_from_cart_found _ _ _ _ _ Ec). cbv zeta.
      destruct (stored_total _); cbn [snd]; [|exact IH].
      now rewrite owners_updated.
    - rewrite create_order_unfold.
      destruct (stored_total _); cbn [snd]; [|exact IH].
      now rewrite (owners_updated (set_orders db _)). }
  assert (Hu : forall uid c c', In c (carts db) -> In c' (carts db) ->
                 cart_user_id c = uid -> cart_user_id c' = uid -> c = c').
  { intros uid c c' Hc Hc' E E'.
    apply (NoDup_map_unique cart_user_id (carts db)); try assumption.
    congruence. }
  split; [exact Hd|]. split; [exact Hu|].
  intros uid c. split.
  - intros Hc. apply find_one_In in Hc as [Hin Hq].
    apply String.eqb_eq in Hq. auto.
  - intros [Hin Hc]. unfold cart_of.
    destruct (find_one (by_user uid) (carts db)) as [c'|] eqn:E.
    + apply find_one_In in E as [Hin' Hq]. apply String.eqb_eq in Hq.
      now rewrite (Hu uid c c' Hin Hin' Hc Hq).
    + pose proof (find_one_none _ _ E c Hin) as Hq. unfold by_user in Hq.
      rewrite Hc, String.eqb_refl in Hq. discriminate.
Qed.

Lemma one_cart_per_account_witness :
  let db := snd (get_cart (Sample.env "c-2" 200) Sample.alice
                   (snd (get_cart (Sample.env "c-1" 100) Sample.alice Sample.shop))) in
  NoDup (map cart_user_id (carts db)) /\
  (forall uid c c', In c (carts db) -> In c' (carts db) ->
     cart_user_id c = uid -> cart_user_id c' = uid -> c = c') /\
  (forall uid c, cart_of uid db = Some c <->
                 In c (carts db) /\ cart_user_id c = uid).
Proof.
  exact (one_cart_per_account _
           (reach_get_cart (Sample.env "c-2" 200) Sample.alice _
              (reach_get_cart (Sample.env "c-1" 100) Sample.alice _ reachable_shop))).
Defined.

(** ** Orders *)

(** X8: whatever it answers, order placement leaves the users and the
    catalog as they were, keeps every stored order, creates no cart and
    leaves the cart of every other account as it was; the account's own
    cart keeps its identifier and creation time; when it does not succeed
    the whole store is as it was. *)
Theorem create_order_frame
    (env : Env) (od : OrderCreate) (u : User) (db : Db) :
  let after := snd (create_order env od u db) in
  users after = users db /\ products after = products db /\
  (forall o, In o (orders db) -> In o (orders after)) /\
  List.length (carts after) = List.length (carts db) /\
  (forall uid', uid' <> user_id_ u -> cart_of uid' after = cart_of uid' db) /\
  (forall c, cart_of (user_id_ u) db = Some c ->
     exists c', cart_of (user_id_ u) after = Some c' /\
                cart_id c' = cart_id c /\ cart_user_id c' = cart_user_id c /\
                cart_created_at c' = cart_created_at c) /\
  (is_ok (fst (create_order env od u db)) = false -> after = db).
Proof.
  intros after. subst after. rewrite create_order_unfold.
  destruct (stored_total (oc_items od)) as [total|]; cbn [fst snd is_ok].
  - split; [reflexivity|]. split; [reflexivity|]. split.
    { intros o Hin. simpl. apply in_or_app. now left. }
    split; [simpl; apply update_one_length|]. split.
    { intros uid' Hne.
      apply (cart_of_other_updated (user_id_ u) uid' (set_orders db _)); auto. }
    split; [|discriminate].
    intros c Hc.
    rewrite (cart_of_updated (user_id_ u) (set_orders db _)) by reflexivity.
    change (cart_of (user_id_ u) (set_orders db (orders db ++ _)))
      with (cart_of (user_id_ u) db).
    rewrite Hc. simpl. eexists. split; [reflexivity|]. now repeat split.
  - split; [reflexivity|]. split; [reflexivity|]. split; [auto|].
    split; [reflexivity|]. split; [reflexivity|]. split; [eauto | reflexivity].
Qed.

Lemma find_one_app_found {A : Type} (q : A -> bool) (l l' : list A) (d : A) :
  find_one q l = Some d -> find_one q (l ++ l') = Some d.
Proof.
  induction l as [|a l IH]; simpl; [discriminate|].
  destruct (q a); [auto | exact IH].
Qed.

(** X9: after a successful order placement whose identifier is new to the
    store, fetching the order by that identifier as the same account
    returns it, and as any other account answers 404; the orders that could
    be fetched before still can; and the order is in the account's list
    when the account had fewer than 100 orders. *)
Theorem create_order_then_get_order
    (env : Env) (od : OrderCreate) (u : User) (db : Db) (o : Order) :
  ~ In (uuid4 env) (map order_id (orders db)) ->
  fst (create_order env od u db) = Ok o ->
  let after := snd (create_order env od u db) in
  order_id o = uuid4 env /\
  get_order (order_id o) u after = Ok o /\
  (forall b, user_id_ b <> user_id_ u ->
     get_order (order_id o) b after = HTTPException 404 "Order not found") /\
  (forall oid a o', get_order oid a db = Ok o' -> get_order oid a after = Ok o') /\
  ((List.length
      (filter (fun o' => String.eqb (order_user_id o') (user_id_ u)) (orders db))
    < 100)%nat ->
   exists l, get_user_orders u after = Ok l /\ In o l).
Proof.
  intros Hfresh Hok after. subst after.
  rewrite create_order_unfold in *.
  destruct (stored_total (oc_items od)) as [total|]; [|discriminate].
  cbn [fst snd] in *. injection Hok as <-. cbn [order_id].
  assert (Hnone : forall uid, find_one (owned_order (uuid4 env) uid) (orders db) = None).
  { intros uid. apply find_one_none_iff. intros [o' [Hin Hq]].
    unfold owned_order in Hq. apply andb_true_iff in Hq as [Hq _].
    apply String.eqb_eq in Hq. apply Hfresh. rewrite <- Hq. now apply in_map. }
  split; [reflexivity|]. split; [|split; [|split]].
  - unfold get_order. simpl orders.
    change (orders db ++ [?x]) with (insert_one x (orders db)).
    rewrite find_one_insert, Hnone. unfold owned_order. simpl.
    now rewrite !String.eqb_refl.
  - intros b Hne. unfold get_order. simpl orders.
    change (orders db ++ [?x]) with (insert_one x (orders db)).
    rewrite find_one_insert, Hnone. unfold owned_order. simpl.
    rewrite String.eqb_refl. simpl.
    destruct (String.eqb_spec (user_id_ u) (user_id_ b)); [congruence | reflexivity].
  - intros oid a o'. unfold get_order. simpl orders.
    destruct (find_one (owned_order oid (user_id_ a)) (orders db)) as [o0|] eqn:E;
      [|discriminate].
    intros [= <-]. now rewrite (find_one_app_found _ _ _ _ E).
  - intros Hlt. unfold get_user_orders. simpl orders. eexists.
    split; [reflexivity|].
    rewrite filter_app. cbn [filter order_user_id]. rewrite String.eqb_refl.
    rewrite firstn_app.
    apply in_or_app. right.
    set (mine := filter _ (orders db)) in *.
    replace (100 - List.length mine)%nat with (S (99 - List.length mine))%nat by lia.
    cbn [firstn]. now left.
Qed.

Lemma create_order_then_get_order_witness :
  let env := Sample.env "o-1" 7 in
  let after := snd (create_order env Sample.small_order Sample.alice Sample.shop) in
  order_id Sample.order_a = "o-1" /\
  get_order (order_id Sample.order_a) Sample.alice after = Ok Sample.order_a /\
  (forall b, user_id_ b <> "alice" ->
     get_order (order_id Sample.order_a) b after
     = HTTPException 404 "Order not found") /\
  (forall oid a o', get_order oid a Sample.shop = Ok o' ->
                    get_order oid a after = Ok o') /\
  ((0 < 100)%nat ->
   exists l, get_user_orders Sample.alice after = Ok l /\ In Sample.order_a l).
Proof.
  exact (create_order_then_get_order (Sample.env "o-1" 7) Sample.small_order
           Sample.alice Sample.shop Sample.order_a (fun H => H) eq_refl).
Defined.

Lemma firstn_subset {A : Type} (n : nat) (l : list A) (x : A) :
  In x (firstn n l) -> In x l.
Proof.
  intros Hin. rewrite <- (firstn_skipn n l). apply in_or_app. now left.
Qed.

(** X10: the list of an account's orders holds at most 100 orders, each one
    stored and owned by the account, in the order of the store; it holds all
    of the account's orders when these are at most 100. *)
Theorem get_user_orders_owned (u : User) (db : Db) :
  exists l,
    get_user_orders u db = Ok l /\
    (List.length l <= 100)%nat /\
    (forall o, In o l -> In o (orders db) /\ order_user_id o = user_id_ u) /\
    (exists rest,
       filter (fun o => String.eqb (order_user_id o) (user_id_ u)) (orders db)
       = l ++ rest) /\
    ((List.length
        (filter (fun o => String.eqb (order_user_id o) (user_id_ u)) (orders db))
      <= 100)%nat ->
     forall o, In o (orders db) -> order_user_id o = user_id_ u -> In o l).
Proof.
  unfold get_user_orders.
  set (mine := filter _ (orders db)).
  exists (firstn 100 mine). split; [reflexivity|].
  split; [apply firstn_le_length|]. split; [|split].
  - intros o Hin. apply firstn_subset in Hin. apply filter_In in Hin as [Hin Hq].
    apply String.eqb_eq in Hq. auto.
  - exists (skipn 100 mine). symmetry. apply firstn_skipn.
  - intros Hle o Hin Hown. rewrite firstn_all2 by exact Hle.
    apply filter_In. split; [exact Hin|]. now rewrite Hown, String.eqb_refl.
Qed.

(** ** The catalog *)

(** X11: for a positive limit that fits 8 bytes, the product list holds at most
    [limit] products, each one stored, active and, when a category is
    given, of that category, in the order of the store; it holds every such
    product when these are at most [limit]; an empty category string
    filters nothing, as no category does. *)
Theorem get_products_listing (category : option string) (limit : Z) (db : Db) :
  0 < limit < 2 ^ 63 ->
  exists l,
    get_products category limit db = Ok l /\
    Z.of_nat (List.length l) <= limit /\
    (forall p, In p l ->
       In p (products db) /\ product_is_active p = true /\
       (forall c, category = Some c -> c <> "" -> product_category p = c)) /\
    (exists rest, filter (listed category) (products db) = l ++ rest) /\
    (Z.of_nat (List.length (filter (listed category) (products db))) <= limit ->
     forall p, In p (products db) -> listed category p = true -> In p l) /\
    get_products (Some "") limit db = get_products None limit db.
Proof.
  intros Hl. unfold get_products.
  destruct (Z.ltb_spec limit 0) as [Hneg | _]; [lia|].
  assert (Hb : bson_int limit = true) by (apply bson_int_range; lia).
  rewrite Hb. cbn [negb].
  set (found := filter (listed category) (products db)).
  exists (firstn (Z.to_nat limit) found). split; [reflexivity|].
  split.
  { pose proof (firstn_le_length (Z.to_nat limit) found). lia. }
  split; [|split; [|split]].
  - intros p Hin. apply firstn_subset in Hin.
    apply filter_In in Hin as [Hin Hq]. unfold listed in Hq.
    apply andb_true_iff in Hq as [Ha Hc].
    split; [exact Hin|]. split; [exact Ha|].
    intros c -> Hne.
    destruct (String.eqb_spec c ""); [contradiction|].
    now apply String.eqb_eq in Hc.
  - exists (skipn (Z.to_nat limit) found). symmetry. apply firstn_skipn.
  - intros Hle p Hin Hq. rewrite firstn_all2 by lia.
    apply filter_In. auto.
  - reflexivity.
Qed.

Lemma get_products_listing_witness :
  exists l,
    get_products (Some "wigs") 50 Sample.shop = Ok l /\
    Z.of_nat (List.length l) <= 50 /\
    (forall p, In p l ->
       In p [Sample.wig] /\ product_is_active p = true /\
       (forall c, Some "wigs" = Some c -> c <> "" -> product_category p = c)) /\
    (exists rest, filter (listed (Some "wigs")) [Sample.wig] = l ++ rest) /\
    (Z.of_nat (List.length (filter (listed (Some "wigs")) [Sample.wig])) <= 50 ->
     forall p, In p [Sample.wig] -> listed (Some "wigs") p = true -> In p l) /\
    get_products (Some "") 50 Sample.shop = get_products None 50 Sample.shop.
Proof.
  apply (get_products_listing (Some "wigs") 50 Sample.shop).
  assert (H63 : 2 ^ 6 < 2 ^ 63) by (apply Z.pow_lt_mono_r; lia).
  change (2 ^ 6) with 64 in H63. lia.
Defined.



Lemma insert_samples_app (envs : nat -> Env) (k : nat)
    (samples : list ProductCreate) (ps : list Product) :
  insert_samples envs k samples ps = ps ++ insert_samples envs k samples [].
Proof.
  revert k ps. induction samples as [|d samples IH]; intros k ps; simpl.
  - now rewrite app_nil_r.
  - rewrite (IH (S k) (insert_one _ ps)), (IH (S k) (insert_one _ [])).
    unfold insert_one. now rewrite <- app_assoc.
Qed.

Lemma insert_samples_fields (envs : nat -> Env) (k : nat)
    (samples : list ProductCreate) :
  map product_name (insert_samples envs k samples []) = map pc_name samples /\
  map product_price (insert_samples envs k samples []) = map pc_price samples /\
  map product_category (insert_samples envs k samples [])
    = map pc_category samples /\
  map product_stock_quantity (insert_samples envs k samples [])
    = map pc_stock_quantity samples /\
  Forall (fun p => product_is_active p = true) (insert_samples envs k samples []).
Proof.
  revert k. induction samples as [|d samples IH]; intros k; simpl.
  - repeat split. constructor.
  - rewrite insert_samples_app. unfold insert_one. simpl.
    destruct (IH (S k)) as [H1 [H2 [H3 [H4 H5]]]].
    rewrite H1, H2, H3, H4. repeat split. now constructor.
Qed.

(** X13: seeding writes only to an empty catalog: when the catalog holds any
    product, active or not, it answers "Sample data already exists" and
    leaves the store as it was; on an empty catalog it stores the eight
    sample products, all active, with their names, prices, categories and
    stocks, in their order, and touches nothing else; seeding again, from
    either result, changes nothing. *)
Theorem initialize_sample_data_once (envs : nat -> Env) (db : Db) :
  let seeded := snd (initialize_sample_data envs db) in
  (products db <> [] ->
   initialize_sample_data envs db = (Ok "Sample data already exists", db)) /\
  (products db = [] ->
   fst (initialize_sample_data envs db) = Ok "Initialized 8 sample products" /\
   List.length (products seeded) = 8%nat /\
   map product_name (products seeded) = map pc_name sample_products /\
   map product_price (products seeded) = map pc_price sample_products /\
   map product_category (products seeded) = map pc_category sample_products /\
   map product_stock_quantity (products seeded)
     = map pc_stock_quantity sample_products /\
   map product_id_ (products seeded)
     = map (fun k => uuid4 (envs k)) (seq 0 8) /\
   Forall (fun p => product_is_active p = true) (products seeded)) /\
  users seeded = users db /\ carts seeded = carts db /\
  orders seeded = orders db /\
  (forall envs',
     initialize_sample_data envs' seeded
     = (Ok "Sample data already exists", seeded)).
Proof.
  intros seeded. subst seeded. unfold initialize_sample_data.
  destruct (products db) as [|p ps] eqn:Eps.
  - cbn [List.length Z.of_nat Z.ltb Z.compare fst snd].
    split; [intros Hne; now contradiction Hne|].
    split; [|repeat split].
    intros _.
    destruct (insert_samples_fields envs 0 sample_products) as [H1 [H2 [H3 [H4 H5]]]].
    cbn [products set_products].
    split; [reflexivity|]. split; [reflexivity|].
    split; [exact H1|]. split; [exact H2|]. split; [exact H3|].
    split; [exact H4|]. split; [reflexivity | exact H5].
  - assert (Hpos : (0 <? Z.of_nat (List.length (p :: ps))) = true).
    { apply Z.ltb_lt. simpl List.length. lia. }
    rewrite Hpos. cbn [fst snd]. rewrite Eps, Hpos.
    split; [reflexivity|]. split; [discriminate|]. repeat split.
Qed.

(** ** Accounts and tokens *)

Section AccountProperties.
Context `{Libraries}.

Lemma register_ok_inv (env : Env) (user_data : UserCreate) (db : Db)
    (view : UserResponse) :
  fst (register env user_data db) = Ok view ->
  validate_email (uc_email user_data) = true /\
  find_one (by_email (uc_email user_data)) (users db) = None /\
  register env user_data db =
    (Ok view,
     set_users db
       (users db ++
        [mkUser (uuid4 env) (uc_email user_data) (uc_first_name user_data)
                (uc_last_name user_data)
                (hash_password env (uc_password user_data))
                (utcnow env 0%nat) true])) /\
  view = mkUserResponse (uuid4 env) (uc_email user_data)
           (uc_first_name user_data) (uc_last_name user_data)
           (utcnow env 0%nat) true.
Proof.
  unfold register.
  destruct (validate_email (uc_email user_data)); cbn [negb]; [|discriminate].
  destruct (find_one _ (users db)); cbn [fst]; [discriminate|].
  intros [= <-]. repeat split.
Qed.

(** X14: an account just registered can log in and be resolved: when
    registration succeeds under an identifier new to the store, and bcrypt
    verifies the password against the hash it made of it, a login with the
    same email and password succeeds with a bearer token and the view
    registration returned, and, while the token has not expired, the token
    resolves to the stored account of that view. *)
Theorem register_then_login_resolves
    (env1 env2 env3 : Env) (user_data : UserCreate) (db : Db)
    (view : UserResponse) :
  fst (register env1 user_data db) = Ok view ->
  ~ In (uuid4 env1) (map user_id_ (users db)) ->
  bcrypt_checkpw (uc_password user_data)
                 (bcrypt_hashpw (uc_password user_data) (gensalt env1)) = true ->
  utcnow env3 0%nat < utcnow env2 0%nat + 24 * 3600 ->
  let after := snd (register env1 user_data db) in
  exists r user,
    login env2 (mkUserLogin (uc_email user_data) (uc_password user_data)) after
      = Ok r /\
    token_type r = "bearer" /\ lr_user r = view /\
    get_current_user env3 (access_token r) after = Ok user /\
    In user (users after) /\
    to_UserResponse user = view /\
    user_id_ user = uuid4 env1.
Proof.
  intros Hok Hfresh Hpw Hlive after. subst after.
  destruct (register_ok_inv _ _ _ _ Hok) as [_ [Hnone [Hreg ->]]].
  rewrite Hreg. cbn [snd].
  set (user_obj := mkUser (uuid4 env1) _ _ _ _ _ true).
  change (users db ++ [user_obj]) with (insert_one user_obj (users db)).
  assert (Hfind : find_one (by_email (uc_email user_data))
                    (users (set_users db (insert_one user_obj (users db))))
                  = Some user_obj).
  { cbn [users set_users]. rewrite find_one_insert, Hnone.
    unfold by_email. simpl. now rewrite String.eqb_refl. }
  exists (mkLoginResponse
            (create_access_token env2 [("sub", Str (uuid4 env1))])
            "bearer" (to_UserResponse user_obj)), user_obj.
  split.
  { unfold login. cbn [ul_email ul_password]. rewrite Hfind.
    unfold verify_password, hash_password. simpl user_password_hash.
    unfold hash_password. now rewrite Hpw. }
  split; [reflexivity|]. split; [reflexivity|]. split.
  { unfold get_current_user. cbn [access_token].
    rewrite issued_token_subject.
    apply Z.ltb_lt in Hlive. rewrite Hlive.
    cbn [users set_users]. rewrite find_one_insert.
    destruct (find_one (by_id (Str (uuid4 env1))) (users db)) as [u0|] eqn:E.
    - exfalso. apply find_one_In in E as [Hin Hq]. simpl in Hq.
      apply String.eqb_eq in Hq. apply Hfresh. rewrite <- Hq. now apply in_map.
    - simpl. now rewrite String.eqb_refl. }
  split; [|split; reflexivity].
  cbn [users set_users]. unfold insert_one. apply in_or_app. right. now left.
Qed.

(** X15: registration keeps emails unique: when no two stored accounts share
    an email, none do afterwards; it leaves the catalog, the carts and the
    orders as they were (it creates no cart), keeps every stored account,
    and leaves the whole store as it was when it fails. *)
Theorem register_keeps_emails_unique
    (env : Env) (user_data : UserCreate) (db : Db) :
  NoDup (map user_email (users db)) ->
  let after := snd (register env user_data db) in
  NoDup (map user_email (users after)) /\
  (forall u0, In u0 (users db) -> In u0 (users after)) /\
  products after = products db /\ carts after = carts db /\
  orders after = orders db /\
  (is_ok (fst (register env user_data db)) = false -> after = db).
Proof.
  intros Hd after. subst after. unfold register.
  destruct (validate_email (uc_email user_data)); cbn [negb fst snd is_ok];
    [|repeat split; auto].
  destruct (find_one (by_email (uc_email user_data)) (users db)) as [u0|] eqn:E;
    cbn [fst snd is_ok]; [repeat split; auto|].
  split; [|split; [|repeat split; discriminate]].
  - cbn [users set_users]. unfold insert_one. rewrite map_app. simpl.
    apply NoDup_rev in Hd.
    assert (Hr : NoDup (rev (uc_email user_data :: rev (map user_email (users db))))).
    { apply NoDup_rev. constructor; [|exact Hd].
      intros Hin. apply in_rev in Hin. apply in_map_iff in Hin as [u1 [He Hin]].
      pose proof (find_one_none _ _ E u1 Hin) as Hq. unfold by_email in Hq.
      rewrite He, String.eqb_refl in Hq. discriminate. }
    simpl in Hr. now rewrite rev_involutive in Hr.
  - intros u1 Hin. cbn [users set_users]. unfold insert_one.
    apply in_or_app. now left.
Qed.

(** X16: resolving a bearer token never yields an account other than the
    token's subject: it returns a stored account whose identifier is the
    subject of the valid token; it answers 401 "Invalid token" exactly when
    validation fails, and 404 "User not found" when the token is valid and
    no stored account has its subject as identifier. *)
Theorem get_current_user_cases (env : Env) (credentials : token) (db : Db) :
  match get_current_user env credentials db with
  | Ok user =>
      In user (users db) /\
      token_subject env credentials = Ok (Str (user_id_ user))
  | HTTPException code detail =>
      (code = 401 /\ detail = "Invalid token" /\
       token_subject env credentials = HTTPException 401 "Invalid token") \/
      (code = 404 /\ detail = "User not found" /\
       exists subject,
         token_subject env credentials = Ok subject /\
         forall user, In user (users db) -> subject <> Str (user_id_ user))
  | Unhandled _ => False
  end.
Proof.
  unfold get_current_user.
  destruct (token_subject_invalid env credentials) as [[subject Hs] | Hs];
    rewrite Hs; [|left; auto].
  destruct (find_one (by_id subject) (users db)) as [user|] eqn:E.
  - apply find_one_In in E as [Hin Hq]. split; [exact Hin|].
    destruct subject as [s | n]; simpl in Hq; [|discriminate].
    apply String.eqb_eq in Hq. now rewrite Hq.
  - right. split; [reflexivity|]. split; [reflexivity|].
    exists subject. split; [reflexivity|].
    intros user Hin ->.
    pose proof (find_one_none _ _ E user Hin) as Hq. simpl in Hq.
    rewrite String.eqb_refl in Hq. discriminate.
Qed.

(** X17: whatever claims the caller passes, the token issued carries an
    expiry of the current time plus 24 hours (an expiry among the claims
    passed is overwritten), every other claim as it was passed, and the
    signature of these claims under the shared secret. *)
Theorem create_access_token_claims (env : Env) (data : payload) :
  exists claims,
    create_access_token env data = Jwt claims (hs256 JWT_SECRET claims) /\
    dict_get "exp" claims = Some (Num (utcnow env 0%nat + 24 * 3600)) /\
    (forall k, k <> "exp" -> dict_get k claims = dict_get k data).
Proof.
  unfold create_access_token, jwt_encode. eexists.
  split; [reflexivity|]. split.
  - apply dict_get_update.
  - intros k Hne. now apply dict_get_update_other.
Qed.

End AccountProperties.

Lemma register_then_login_resolves_witness :
  let data := mkUserCreate "testuser@example.com" "John" "Doe" "testpass123" in
  let view := mkUserResponse "u-3" "testuser@example.com" "John" "Doe" 5 true in
  let after := snd (@register Sample.libs (Sample.env "u-3" 5) data Sample.shop) in
  exists r user,
    @login Sample.libs (Sample.env "" 10)
           (mkUserLogin "testuser@example.com" "testpass123") after = Ok r /\
    token_type r = "bearer" /\ lr_user r = view /\
    @get_current_user Sample.libs (Sample.env "" 20) (access_token r) after
      = Ok user /\
    In user (users after) /\
    to_UserResponse user = view /\
    user_id_ user = "u-3".
Proof.
  apply (@register_then_login_resolves Sample.libs
           (Sample.env "u-3" 5) (Sample.env "" 10) (Sample.env "" 20)
           (mkUserCreate "testuser@example.com" "John" "Doe" "testpass123")
           Sample.shop
           (mkUserResponse "u-3" "testuser@example.com" "John" "Doe" 5 true)).
  - reflexivity.
  - simpl. intros [H | [H | []]]; discriminate.
  - reflexivity.
  - vm_compute. reflexivity.
Defined.

Lemma register_keeps_emails_unique_witness :
  let after :=
    snd (@register Sample.libs (Sample.env "u-3" 5)
           (mkUserCreate "testuser@example.com" "John" "Doe" "testpass123")
           Sample.shop) in
  NoDup (map user_email (users after)) /\
  (forall u0, In u0 (users Sample.shop) -> In u0 (users after)) /\
  products after = products Sample.shop /\ carts after = carts Sample.shop /\
  orders after = orders Sample.shop /\
  (is_ok (fst (@register Sample.libs (Sample.env "u-3" 5)
                 (mkUserCreate "testuser@example.com" "John" "Doe" "testpass123")
                 Sample.shop)) = false -> after = Sample.shop).
Proof.
  apply (@register_keeps_emails_unique Sample.libs (Sample.env "u-3" 5)
           (mkUserCreate "testuser@example.com" "John" "Doe" "testpass123")
           Sample.shop).
  simpl. constructor.
  - intros [H | []]. discriminate.
  - constructor; [intros [] | constructor].
Defined.

(** ** When an add goes through *)

Lemma storable_defined (its : list CartItem) :
  storable its = true -> exists total, stored_total its = Some total.
Proof.
  intros Hs. apply stored_total_defined. apply Forall_forall.
  intros it Hin. apply bson_int_range.
  unfold storable in Hs. now apply (proj1 (forallb_forall _ _) Hs).
Qed.

Lemma storable_added (pid : string) (qty : Z) (p : float) (its : list CartItem) :
  storable its = true ->
  storable (added_lines pid qty p its) =
  bson_int match existing_item pid its with
           | Some it => quantity it + qty
           | None => qty
           end.
Proof.
  unfold added_lines, storable.
  destruct (existing_item pid its) as [it0|] eqn:E.
  - unfold existing_item, bump_quantity in *.
    induction its as [|it its IH]; simpl in *; [discriminate|].
    intros Hs. apply andb_true_iff in Hs as [Hit Hs].
    destruct (String.eqb (product_id it) pid) eqn:Ei; simpl.
    + injection E as ->. rewrite Hs. apply andb_true_r.
    + rewrite Hit. simpl. now apply IH.
  - intros Hs. rewrite forallb_app, Hs. simpl. apply andb_true_r.
Qed.

(** X18: in a state the store can be in and for a product on offer,
    add-to-cart succeeds exactly when the quantity the product's line gets
    (the added quantity, plus the line's quantity when the cart has one)
    fits a signed 64-bit integer, whatever its sign; otherwise it raises
    [OverflowError]. *)
Theorem add_to_cart_succeeds
    (env : Env) (pid : string) (qty : Z) (u : User) (db : Db) (product : Product) :
  reachable db ->
  find_one (active_product pid) (products db) = Some product ->
  let before :=
    match cart_of (user_id_ u) db with Some c => cart_items c | None => [] end in
  let line_quantity :=
    match existing_item pid before with
    | Some it => quantity it + qty
    | None => qty
    end in
  (is_ok (fst (add_to_cart env pid qty u db)) = true <->
   - 2 ^ 63 <= line_quantity < 2 ^ 63) /\
  (is_ok (fst (add_to_cart env pid qty u db)) = false ->
   fst (add_to_cart env pid qty u db) = Unhandled "OverflowError").
Proof.
  intros Hr Ep before line_quantity. subst before line_quantity.
  rewrite <- (looked_up_cart_items env (user_id_ u) db).
  pose proof (looked_up_cart_stored env (user_id_ u) db Hr) as Hst0.
  apply stored_total_some in Hst0 as [_ Hb0].
  pose proof (storable_added pid qty (product_price product) _ Hb0) as Hb.
  rewrite <- bson_int_range, <- Hb.
  destruct (stored_total (added_lines pid qty (product_price product)
              (cart_items (looked_up_cart env (user_id_ u) db))))
    as [total|] eqn:Est.
  - destruct (add_to_cart_result _ _ _ _ _ _ _ Ep Est) as [Hfst _].
    rewrite Hfst. cbn [is_ok].
    apply stored_total_some in Est as [_ Est].
    split; [tauto | discriminate].
  - assert (Hno : storable (added_lines pid qty (product_price product)
                    (cart_items (looked_up_cart env (user_id_ u) db))) <> true).
    { intros Hs. destruct (storable_defined _ Hs) as [t Ht]. congruence. }
    assert (Hun : fst (add_to_cart env pid qty u db) = Unhandled "OverflowError").
    { destruct (add_to_cart_found_answer env pid qty u db product Ep)
        as [Hun | [s Hok]]; [exact Hun|].
      destruct (add_to_cart_ok_inv _ _ _ _ _ _ Hok) as [product' [t [Ep' Ht]]].
      rewrite Ep in Ep'. injection Ep' as <-. congruence. }
    rewrite Hun. cbn [is_ok]. split; [|reflexivity].
    split; [discriminate | contradiction].
Qed.

Lemma add_to_cart_succeeds_witness :
  (is_ok (fst (add_to_cart (Sample.env "a" 300) "wig" (-5) Sample.alice
                 Sample.shop_with_cart)) = true <->
   - 2 ^ 63 <= 2 + (-5) < 2 ^ 63) /\
  (is_ok (fst (add_to_cart (Sample.env "a" 300) "wig" (-5) Sample.alice
                 Sample.shop_with_cart)) = false ->
   fst (add_to_cart (Sample.env "a" 300) "wig" (-5) Sample.alice
          Sample.shop_with_cart) = Unhandled "OverflowError").
Proof.
  apply (add_to_cart_succeeds (Sample.env "a" 300) "wig" (-5) Sample.alice
           Sample.shop_with_cart Sample.wig).
  - exact (reach_add_to_cart (Sample.env "c-1" 100) "wig" 2 Sample.alice _
             reachable_shop).
  - reflexivity.
Defined.

(** A line of two wigs less five is a line of minus three wigs; two wigs
    more 2^63 are refused and the cart stays as it was. *)
Lemma add_to_cart_negative_and_huge :
  option_map cart_items
    (cart_of "alice"
       (snd (add_to_cart (Sample.env "a" 300) "wig" (-5) Sample.alice
               Sample.shop_with_cart)))
  = Some [mkCartItem "wig" (-3) Sample.ten] /\
  add_to_cart (Sample.env "a" 300) "wig" (2 ^ 63) Sample.alice
              Sample.shop_with_cart
  = (Unhandled "OverflowError", Sample.shop_with_cart).
Proof. split; vm_compute; reflexivity. Qed.
